(** * CpuInfo: a shallow embedding of [be/src/util/cpu-info.cc]

    The static members of [impala::CpuInfo] become one record that is
    threaded through the member functions.  What the functions read
    from the operating system ([/proc/cpuinfo], the [/sys] NUMA tree,
    [get_nprocs_conf()], [sched_getcpu()]) is collected in an
    environment record, and the preprocessor switches the file tests
    ([__x86_64__], [HAVE_SCHED_GETCPU]) in a build record.  Calls that
    can abort the process or leave defined behaviour return in the
    [result] monad. *)

From Stdlib Require Import ZArith Ascii String Permutation.
From stdpp Require Import base tactics option list numbers strings pretty.

Local Open Scope string_scope.
Local Open Scope Z_scope.

(** ** Outcomes of a call *)

(** The ways a member function can fail to return. *)
Inductive fault : Type :=
  | DcheckFailed      (* a DCHECK / DCHECK_EQ did not hold: the process aborts *)
  | IndexOutOfRange   (* operator[] outside the array or vector *)
  | LengthError       (* vector::resize with a negative int, i.e. a huge size_t *)
  | DivideByZero      (* integer [%] with a zero divisor *)
  | FuelExhausted.    (* the model's loop bound was too small; never reached, see
                         [scan_loop_terminates] *)

Inductive result (A : Type) : Type :=
  | Ok (a : A)
  | Crash (f : fault).
Arguments Ok {A} a.
Arguments Crash {A} f.

#[global] Instance result_ret : MRet result := fun _ a => Ok a.
#[global] Instance result_bind : MBind result := fun _ _ k m =>
  match m with
  | Ok a => k a
  | Crash f => Crash f
  end.

Definition is_ok {A} (r : result A) : bool :=
  match r with Ok _ => true | Crash _ => false end.

(** Modelled from the spec: the [DCHECK] macro comes from the logging
    header (glog), which is not part of the source file.  Sections 4.1,
    7 and 9 of the specification describe a violated check as a fatal,
    unrecoverable termination, which is how glog behaves when DCHECKs
    are compiled in. *)
Definition DCHECK (cond : bool) : result unit :=
  if cond then Ok tt else Crash DcheckFailed.

(** [for (x : xs) body] with early exit on a fault. *)
Fixpoint for_each {St X : Type} (body : X → St → result St) (xs : list X) (s : St)
  : result St :=
  match xs with
  | [] => Ok s
  | x :: xs' => s' ← body x s; for_each body xs' s'
  end.

(** ** The pieces of [std::string] and boost's string algorithms in use *)

Module Str.

(** [std::string::npos] and [size_t] arithmetic. *)
Definition npos : N := (2 ^ 64 - 1)%N.
Definition size_sub (a b : N) : N := ((a + 2 ^ 64 - b) mod 2 ^ 64)%N.

(** [s.find(c)]: position of the first [c], [None] standing for [npos]. *)
Fixpoint find (c : ascii) (s : string) : option N :=
  match s with
  | EmptyString => None
  | String d s' =>
      if Ascii.eqb d c then Some 0%N else N.succ <$> find c s'
  end.

(** [s.substr(pos, n)] for [pos <= s.size()]: at most [n] characters,
    clipped to what is left of the string. *)
Definition substr (s : string) (pos n : N) : string :=
  let rlen := N.min n (N.of_nat (String.length s) - pos) in
  String.substring (N.to_nat pos) (N.to_nat rlen) s.

(** [std::isspace] in the classic locale, as [boost::trim] uses it. *)
Definition is_space (c : ascii) : bool :=
  let n := nat_of_ascii c in
  (Nat.eqb n 32 || (Nat.leb 9 n && Nat.leb n 13))%bool.

Fixpoint trim_left (s : string) : string :=
  match s with
  | EmptyString => EmptyString
  | String c s' => if is_space c then trim_left s' else s
  end.

(** [trim_right]: drop the trailing run of white space.  A suffix that
    is all white space collapses to the empty string. *)
Fixpoint trim_right (s : string) : string :=
  match s with
  | EmptyString => EmptyString
  | String c s' =>
      match trim_right s' with
      | EmptyString => if is_space c then EmptyString else String c EmptyString
      | t => String c t
      end
  end.

Definition trim (s : string) : string := trim_left (trim_right s).

(** [boost::algorithm::contains(input, test)]: [test] occurs in [input]
    as a contiguous substring. *)
Fixpoint contains (input test : string) : bool :=
  (String.prefix test input ||
   match input with
   | EmptyString => false
   | String _ rest => contains rest test
   end)%bool.

(** [filename.find("node") == 0]. *)
Definition starts_with (pre s : string) : bool := String.prefix pre s.

End Str.

(** ** Capability flags *)

(** The seven [CpuInfo::...] bit constants are declared in the header
    [util/cpu-info.h], which is not part of the source file; they are a
    parameter of the development. *)
Class CpuFlags : Type := {
  SSSE3 : Z;
  SSE4_1 : Z;
  SSE4_2 : Z;
  POPCNT : Z;
  AVX : Z;
  AVX2 : Z;
  PCLMULQDQ : Z
}.

(** The flags are pairwise distinct single bits of a 64-bit mask. *)
Definition single_bit (flag : Z) : Prop := ∃ k : Z, 0 ≤ k < 63 ∧ flag = Z.shiftl 1 k.

Definition all_flags `{CpuFlags} : list Z :=
  [SSSE3; SSE4_1; SSE4_2; POPCNT; AVX; AVX2; PCLMULQDQ].

Definition flags_wf `{CpuFlags} : Prop :=
  Forall single_bit all_flags ∧ NoDup all_flags.

Section with_flags.
Context `{CpuFlags}.

(** [flag_mappings] *)
Definition flag_mappings : list (string * Z) :=
  [ ("ssse3",     SSSE3);
    ("sse4_1",    SSE4_1);
    ("sse4_2",    SSE4_2);
    ("popcnt",    POPCNT);
    ("avx",       AVX);
    ("avx2",      AVX2);
    ("pclmulqdq", PCLMULQDQ) ].

(** [ParseCPUFlags]: the loop over [flag_mappings], or-ing the flag
    of every name found in [values]. *)
Definition ParseCPUFlags (values : string) : Z :=
  fold_left
    (fun flags m => if Str.contains values m.1 then Z.lor flags m.2 else flags)
    flag_mappings 0.

End with_flags.

(** ** Floating point *)

(** [Init] keeps the running maximum of the [cpu MHz] values in a C
    [float].  The model only needs the float operations the function
    performs, with one law: the literal [0] compares equal to zero. *)
Class FloatModel : Type := {
  cfloat : Type;
  float_zero : cfloat;                         (* the literal 0 *)
  atof : string → cfloat;                      (* (float) atof(value.c_str()) *)
  float_max : cfloat → cfloat → cfloat;        (* std::max *)
  float_is_zero : cfloat → bool;               (* x == 0 *)
  float_to_cycles : cfloat → Z;                (* (int64_t) (x * 1000) *)
  float_zero_is_zero : float_is_zero float_zero = true
}.

(** ** The class state, the environment and the build *)

(** The static data members of [CpuInfo]. *)
Record CpuInfo : Type := mkCpuInfo {
  initialized_ : bool;
  hardware_flags_ : Z;
  original_hardware_flags_ : Z;
  cycles_per_ms_ : Z;
  num_cores_ : Z;
  max_num_cores_ : Z;
  model_name_ : string;
  max_num_numa_nodes_ : Z;
  core_to_numa_node_ : list Z;
  numa_node_to_cores_ : list (list Z);
  numa_node_core_idx_ : list Z
}.

(** The initializers of the static members; those without one are
    zero-initialized, and the [unique_ptr] starts out null (no
    element can be addressed). *)
Definition static_init : CpuInfo := {|
  initialized_ := false;
  hardware_flags_ := 0;
  original_hardware_flags_ := 0;
  cycles_per_ms_ := 0;
  num_cores_ := 1;
  max_num_cores_ := 0;
  model_name_ := "unknown";
  max_num_numa_nodes_ := 0;
  core_to_numa_node_ := [];
  numa_node_to_cores_ := [];
  numa_node_core_idx_ := []
|}.

(** What the functions read from the operating system and the flags. *)
Record Env : Type := mkEnv {
  proc_cpuinfo : option string;        (* contents of /proc/cpuinfo, None if it cannot be opened *)
  FLAGS_num_cores : Z;                 (* --num_cores *)
  get_nprocs_conf : Z;                 (* get_nprocs_conf() *)
  sched_getcpu : Z;                    (* sched_getcpu() *)
  sys_node_dir : option (list string); (* file names in /sys/devices/system/node,
                                          None if that is not a directory *)
  cpu_node_link : Z → Z → bool;        (* fs::exists(".../cpu/cpu$0/node$1") *)
  fresh_int : Z → Z                    (* what element i of storage just obtained
                                          from new int[n] happens to hold *)
}.

(** The preprocessor symbols the file tests. *)
Record Build : Type := mkBuild {
  x86_64 : bool;              (* __x86_64__ *)
  HAVE_SCHED_GETCPU : bool
}.

(** [Status]: [OK] or an error carrying its message. *)
Inductive Status : Type :=
  | Status_OK
  | Status_Error (msg : string).

(** Member updates. *)
Definition with_flags_ (hw : Z) (st : CpuInfo) : CpuInfo :=
  mkCpuInfo (initialized_ st) hw (original_hardware_flags_ st)
    (cycles_per_ms_ st) (num_cores_ st) (max_num_cores_ st) (model_name_ st)
    (max_num_numa_nodes_ st) (core_to_numa_node_ st) (numa_node_to_cores_ st)
    (numa_node_core_idx_ st).

Definition with_initialized_ (b : bool) (st : CpuInfo) : CpuInfo :=
  mkCpuInfo b (hardware_flags_ st) (original_hardware_flags_ st)
    (cycles_per_ms_ st) (num_cores_ st) (max_num_cores_ st) (model_name_ st)
    (max_num_numa_nodes_ st) (core_to_numa_node_ st) (numa_node_to_cores_ st)
    (numa_node_core_idx_ st).

Definition with_max_num_numa_nodes_ (n : Z) (st : CpuInfo) : CpuInfo :=
  mkCpuInfo (initialized_ st) (hardware_flags_ st) (original_hardware_flags_ st)
    (cycles_per_ms_ st) (num_cores_ st) (max_num_cores_ st) (model_name_ st)
    n (core_to_numa_node_ st) (numa_node_to_cores_ st) (numa_node_core_idx_ st).

Definition with_core_to_numa_node_ (a : list Z) (st : CpuInfo) : CpuInfo :=
  mkCpuInfo (initialized_ st) (hardware_flags_ st) (original_hardware_flags_ st)
    (cycles_per_ms_ st) (num_cores_ st) (max_num_cores_ st) (model_name_ st)
    (max_num_numa_nodes_ st) a (numa_node_to_cores_ st) (numa_node_core_idx_ st).

Definition with_numa_node_to_cores_ (v : list (list Z)) (st : CpuInfo) : CpuInfo :=
  mkCpuInfo (initialized_ st) (hardware_flags_ st) (original_hardware_flags_ st)
    (cycles_per_ms_ st) (num_cores_ st) (max_num_cores_ st) (model_name_ st)
    (max_num_numa_nodes_ st) (core_to_numa_node_ st) v (numa_node_core_idx_ st).

Definition with_numa_node_core_idx_ (v : list Z) (st : CpuInfo) : CpuInfo :=
  mkCpuInfo (initialized_ st) (hardware_flags_ st) (original_hardware_flags_ st)
    (cycles_per_ms_ st) (num_cores_ st) (max_num_cores_ st) (model_name_ st)
    (max_num_numa_nodes_ st) (core_to_numa_node_ st) (numa_node_to_cores_ st) v.

(** ** Arrays and vectors *)

(** [v[i]], read: outside [0, size) the access is undefined. *)
Definition vec_at {A} (v : list A) (i : Z) : result A :=
  if bool_decide (0 ≤ i) then
    match v !! Z.to_nat i with
    | Some a => Ok a
    | None => Crash IndexOutOfRange
    end
  else Crash IndexOutOfRange.

(** [v[i] = a]. *)
Definition vec_set {A} (v : list A) (i : Z) (a : A) : result (list A) :=
  if bool_decide (0 ≤ i < Z.of_nat (length v)) then Ok (<[Z.to_nat i := a]> v)
  else Crash IndexOutOfRange.

(** [v.resize(n)] with [n] an [int]: value-initialized elements are
    appended or the tail is dropped; a negative [n] converts to a
    [size_t] beyond [max_size()] and the call throws. *)
Definition vec_resize {A} (n : Z) (dflt : A) (v : list A) : result (list A) :=
  if bool_decide (0 ≤ n) then Ok (resize (Z.to_nat n) dflt v)
  else Crash LengthError.

(** [new int[n]]: a negative [n] throws.  The elements of the fresh
    array are indeterminate in C++; the model takes them from the
    environment, [junk i] for element [i], so that nothing can be
    concluded about an element before the code has stored to it. *)
Definition new_int_array (junk : Z → Z) (n : Z) : result (list Z) :=
  if bool_decide (0 ≤ n) then Ok (junk <$> seqZ 0 n)
  else Crash LengthError.

(** The values of [i] in [for (int i = 0; i < n; ++i)]. *)
Definition int_range (n : Z) : list Z := seqZ 0 n.

(** ** Reading [/proc/cpuinfo] line by line *)

(** An [std::ifstream]: the characters not yet read and the two state
    bits the loop depends on. *)
Record ifstream : Type := mkIfstream {
  unread : string;
  eofbit : bool;
  failbit : bool
}.

(** [ifstream f(path)]: opening a missing file sets [failbit]. *)
Definition ifstream_open (file : option string) : ifstream :=
  match file with
  | Some contents => mkIfstream contents false false
  | None => mkIfstream "" false true
  end.

(** [while (f)], i.e. [!f.fail()]. *)
Definition stream_ok (f : ifstream) : bool := negb (failbit f).

Definition stream_good (f : ifstream) : bool := negb (eofbit f) && negb (failbit f).

(** Characters up to the next newline, which is consumed and dropped;
    the third component tells whether the end of the input was hit
    before a newline was found. *)
Fixpoint read_until_newline (s : string) : string * string * bool :=
  match s with
  | EmptyString => (EmptyString, EmptyString, true)
  | String c rest =>
      if Ascii.eqb c "010"%char then (EmptyString, rest, false)
      else
        let '(l, rest', hit_eof) := read_until_newline rest in
        (String c l, rest', hit_eof)
  end.

(** [getline(f, line)].  When the stream is not good the sentry fails:
    [failbit] is set and [line] keeps its old contents.  Otherwise
    [line] is erased and filled; [failbit] is set if nothing at all,
    not even a newline, could be extracted. *)
Definition getline (f : ifstream) (line : string) : ifstream * string :=
  if stream_good f then
    let '(l, rest, hit_eof) := read_until_newline (unread f) in
    let nothing_extracted := bool_decide (unread f = EmptyString) in
    (mkIfstream rest hit_eof nothing_extracted, l)
  else (mkIfstream (unread f) (eofbit f) true, line).

Section Model.
Context `{CpuFlags} `{FloatModel}.

(** The variables the scanning loop of [Init] updates. *)
Record scan_vars : Type := mkScan {
  sv_hardware_flags : Z;    (* hardware_flags_ *)
  sv_model_name : string;   (* model_name_ *)
  sv_max_mhz : cfloat;      (* max_mhz *)
  sv_num_cores : Z          (* num_cores *)
}.

(** The key of a [name : value] line as [Init] computes it: the text
    before the colon without its last character, trimmed.  With the
    colon in column 0 the count [colon - 1] wraps around to [npos]. *)
Definition line_name (line : string) (colon : N) : string :=
  Str.trim (Str.substr line 0 (Str.size_sub colon 1)).

Definition line_value (line : string) (colon : N) : string :=
  Str.trim (Str.substr line (colon + 1) Str.npos).

(** The body of the loop after [getline]. *)
Definition scan_line (line : string) (v : scan_vars) : scan_vars :=
  match Str.find ":"%char line with
  | None => v
  | Some colon =>
      let name := line_name line colon in
      let value := line_value line colon in
      if String.eqb name "flags" then
        mkScan (Z.lor (sv_hardware_flags v) (ParseCPUFlags value))
               (sv_model_name v) (sv_max_mhz v) (sv_num_cores v)
      else if String.eqb name "cpu MHz" then
        mkScan (sv_hardware_flags v) (sv_model_name v)
               (float_max (atof value) (sv_max_mhz v)) (sv_num_cores v)
      else if String.eqb name "processor" then
        mkScan (sv_hardware_flags v) (sv_model_name v) (sv_max_mhz v)
               (sv_num_cores v + 1)
      else if String.eqb name "model name" then
        mkScan (sv_hardware_flags v) value (sv_max_mhz v) (sv_num_cores v)
      else v
  end.

(** [while (cpuinfo) { getline(cpuinfo, line); ... }].  Every
    iteration either consumes a character or sets [failbit], so
    [scan_fuel] iterations are enough. *)
Fixpoint scan_loop (fuel : nat) (f : ifstream) (line : string) (v : scan_vars)
  : option scan_vars :=
  match fuel with
  | O => None
  | S fuel' =>
      if stream_ok f then
        let '(f', line') := getline f line in
        scan_loop fuel' f' line' (scan_line line' v)
      else Some v
  end.

Definition scan_fuel (f : ifstream) : nat := String.length (unread f) + 3.

(** ** NUMA topology *)

(** The body of the loop of [InitNumaNodeToCores], on the pair
    ([numa_node_to_cores_], [numa_node_core_idx_]). *)
Definition place_core (core_to_numa_node : list Z) (core : Z)
    (maps : list (list Z) * list Z) : result (list (list Z) * list Z) :=
  node ← vec_at core_to_numa_node core;
  cores_of_node ← vec_at maps.1 node;
  idx' ← vec_set maps.2 core (Z.of_nat (length cores_of_node));
  nodes' ← vec_set maps.1 node (cores_of_node ++ [core])%list;
  Ok (nodes', idx').

(** [InitNumaNodeToCores] *)
Definition InitNumaNodeToCores (st : CpuInfo) : result CpuInfo :=
  _ ← DCHECK (bool_decide (numa_node_to_cores_ st = []));
  nodes ← vec_resize (max_num_numa_nodes_ st) [] (numa_node_to_cores_ st);
  idx ← vec_resize (max_num_cores_ st) 0 (numa_node_core_idx_ st);
  maps ← for_each (place_core (core_to_numa_node_ st))
           (int_range (max_num_cores_ st)) (nodes, idx);
  Ok (with_numa_node_core_idx_ maps.2 (with_numa_node_to_cores_ maps.1 st)).

(** The node the discovery loop assigns to [core]: the first node in
    [0, max_nodes) whose link exists, 0 if there is none. *)
Definition discover_node (env : Env) (max_nodes core : Z) : Z :=
  match List.find (fun node => cpu_node_link env core node) (int_range max_nodes) with
  | Some node => node
  | None => 0
  end.

(** [InitNuma] *)
Definition InitNuma (env : Env) (st : CpuInfo) : result CpuInfo :=
  fresh ← new_int_array (fresh_int env) (max_num_cores_ st);
  match sys_node_dir env with
  | None =>
      (* Assume a single NUMA node. *)
      let st1 := with_max_num_numa_nodes_ 1 st in
      (* std::fill_n over the whole of the fresh array *)
      filled ← for_each (fun core a => vec_set a core 0)
                 (int_range (max_num_cores_ st)) fresh;
      InitNumaNodeToCores (with_core_to_numa_node_ filled st1)
  | Some entries =>
      let counted :=
        Z.of_nat (length (List.filter (Str.starts_with "node") entries)) in
      let max_nodes := if counted =? 0 then 1 else counted in
      let st1 := with_max_num_numa_nodes_ max_nodes st in
      assigned ← for_each
                   (fun core a => vec_set a core (discover_node env max_nodes core))
                   (int_range (max_num_cores_ st)) fresh;
      InitNumaNodeToCores (with_core_to_numa_node_ assigned st1)
  end.

(** [InitFakeNumaForTest] *)
Definition InitFakeNumaForTest (max_num_numa_nodes : Z) (core_to_numa_node : list Z)
    (st : CpuInfo) : result CpuInfo :=
  _ ← DCHECK (bool_decide (max_num_cores_ st = Z.of_nat (length core_to_numa_node)));
  let st1 := with_max_num_numa_nodes_ max_num_numa_nodes st in
  copied ← for_each
             (fun i a => x ← vec_at core_to_numa_node i; vec_set a i x)
             (int_range (max_num_cores_ st)) (core_to_numa_node_ st);
  InitNumaNodeToCores
    (with_numa_node_to_cores_ [] (with_core_to_numa_node_ copied st1)).

(** ** [Init] *)

Definition Init (env : Env) (st : CpuInfo) : result CpuInfo :=
  let cpuinfo := ifstream_open (proc_cpuinfo env) in
  let start := mkScan (hardware_flags_ st) (model_name_ st) float_zero 0 in
  match scan_loop (scan_fuel cpuinfo) cpuinfo "" start with
  | None => Crash FuelExhausted
  | Some v =>
      let cycles_per_ms :=
        if negb (float_is_zero (sv_max_mhz v)) then float_to_cycles (sv_max_mhz v)
        else 1000000 in
      let num_cores := if 0 <? sv_num_cores v then sv_num_cores v else 1 in
      let num_cores' :=
        if 0 <? FLAGS_num_cores env then FLAGS_num_cores env else num_cores in
      let st1 :=
        mkCpuInfo (initialized_ st)
          (sv_hardware_flags v) (sv_hardware_flags v)
          cycles_per_ms num_cores' (get_nprocs_conf env) (sv_model_name v)
          (max_num_numa_nodes_ st) (core_to_numa_node_ st)
          (numa_node_to_cores_ st) (numa_node_core_idx_ st) in
      st2 ← InitNuma env st1;
      Ok (with_initialized_ true st2)
  end.

(** ** Feature queries and toggles *)

(** Modelled from the spec: [IsSupported] is defined inline in the
    header [util/cpu-info.h], which is not part of the source file.
    Section 4.1: true iff the enabled mask ([hardware_flags_], the one
    [EnableFeature] changes) contains the bit; section 4.5: an
    assertion on [initialized_] guards the accessors. *)
Definition IsSupported (flag : Z) (st : CpuInfo) : result bool :=
  _ ← DCHECK (initialized_ st);
  Ok (negb (Z.land (hardware_flags_ st) flag =? 0)).

Definition avx2_error : string :=
  "This machine does not meet the minimum requirements for Impala " ++
  "functionality. The CPU does not support AVX2 (Advanced Vector " ++
  "Extensions 2).".

(** [EnforceCpuRequirements] *)
Definition EnforceCpuRequirements (b : Build) (st : CpuInfo) : result Status :=
  if x86_64 b then
    supported ← IsSupported AVX2 st;
    if negb supported then Ok (Status_Error avx2_error) else Ok Status_OK
  else Ok Status_OK.

(** [EnableFeature] *)
Definition EnableFeature (flag : Z) (enable : bool) (st : CpuInfo) : result CpuInfo :=
  _ ← DCHECK (initialized_ st);
  if negb enable then
    Ok (with_flags_ (Z.land (hardware_flags_ st) (Z.lnot flag)) st)
  else
    (* Can't turn something on that can't be supported *)
    _ ← DCHECK (negb (Z.land (original_hardware_flags_ st) flag =? 0));
    Ok (with_flags_ (Z.lor (hardware_flags_ st) flag) st).

(** ** The current core *)

(** Modelled from the spec: [LOG_FIRST_N(severity, n)] comes from glog,
    which is not part of the source file.  It keeps a static occurrence
    counter and emits the message on the first [n] executions only (the
    rate limit of section 4.2).  Returns the new counter and whether a
    message is emitted. *)
Definition LOG_FIRST_N (n occurrences : Z) : Z * bool :=
  let occurrences' := if occurrences <=? n then occurrences + 1 else occurrences in
  (occurrences', occurrences' <=? n).

Definition MAX_WARNINGS : Z := 20.

(** What a call of [GetCurrentCore] returns and does to the log. *)
Record core_query : Type := mkCoreQuery {
  current_core : Z;
  warning_logged : bool;
  log_occurrences : Z
}.

(** [GetCurrentCore]; [occurrences] is the counter of its
    [LOG_FIRST_N] statement before the call. *)
Definition GetCurrentCore (b : Build) (env : Env) (st : CpuInfo) (occurrences : Z)
  : result core_query :=
  if HAVE_SCHED_GETCPU b then
    let cpu := sched_getcpu env in
    if cpu <? 0 then Ok (mkCoreQuery 0 false occurrences)
    else if max_num_cores_ st <=? cpu then
      let '(occurrences', logged) := LOG_FIRST_N MAX_WARNINGS occurrences in
      if max_num_cores_ st =? 0 then Crash DivideByZero
      else Ok (mkCoreQuery (Z.rem cpu (max_num_cores_ st)) logged occurrences')
    else Ok (mkCoreQuery cpu false occurrences)
  else Ok (mkCoreQuery 0 false occurrences).

End Model.

(** ** Concrete parameters for the examples *)

(** The bit assignment of the upstream header: [1 << 1] up to [1 << 7]. *)
#[global] Instance impala_flags : CpuFlags := {|
  SSSE3 := Z.shiftl 1 1;
  SSE4_1 := Z.shiftl 1 2;
  SSE4_2 := Z.shiftl 1 3;
  POPCNT := Z.shiftl 1 4;
  AVX := Z.shiftl 1 5;
  AVX2 := Z.shiftl 1 6;
  PCLMULQDQ := Z.shiftl 1 7
|}.

(** A fixed-point stand-in for [float]: frequencies are kept in kHz, so
    that [x * 1000] cycles per millisecond is the number itself.
    [khz_of_string] reads [digits[.digits]], three decimals kept.  It is
    not the arithmetic of C's [float] (no sign, no exponent, no
    rounding) and stands for it only where no [cpu MHz] value is read:
    the statements below are made for an arbitrary [FloatModel], and the
    examples that run on this instance use tables without a [cpu MHz]
    record, so that only [float_zero] and [float_is_zero] are evaluated. *)
Definition digit_of (c : ascii) : option Z :=
  let n := Z.of_nat (nat_of_ascii c) in
  if bool_decide (48 ≤ n ≤ 57) then Some (n - 48) else None.

Fixpoint int_part (s : string) (acc : Z) : Z * string :=
  match s with
  | EmptyString => (acc, EmptyString)
  | String c rest =>
      match digit_of c with
      | Some d => int_part rest (10 * acc + d)
      | None => (acc, s)
      end
  end.

Fixpoint frac_part (places : nat) (s : string) : Z :=
  match places, s with
  | S k, String c rest =>
      match digit_of c with
      | Some d => d * 10 ^ Z.of_nat k + frac_part k rest
      | None => 0
      end
  | _, _ => 0
  end.

Definition khz_of_string (s : string) : Z :=
  let '(whole, rest) := int_part (Str.trim_left s) 0 in
  match rest with
  | String "."%char frac => 1000 * whole + frac_part 3 frac
  | _ => 1000 * whole
  end.

#[global] Instance khz_float : FloatModel := {|
  cfloat := Z;
  float_zero := 0;
  atof := khz_of_string;
  float_max := Z.max;
  float_is_zero := fun x => x =? 0;
  float_to_cycles := fun x => x;
  float_zero_is_zero := eq_refl
|}.

Definition newline : string := String "010"%char EmptyString.

(** The synthetic descriptor table of section 8 of the specification. *)
Definition synthetic_cpuinfo : string :=
  "flags : ssse3 sse4_1 avx2" ++ newline ++
  "processor : 0" ++ newline ++
  "processor : 1" ++ newline.

(** A machine with four possible cores, no NUMA directory, whose
    [/proc/cpuinfo] is [table]. *)
Definition env_of_table (table : option string) : Env := {|
  proc_cpuinfo := table;
  FLAGS_num_cores := 0;
  get_nprocs_conf := 4;
  sched_getcpu := 0;
  sys_node_dir := None;
  cpu_node_link := fun _ _ => false;
  fresh_int := fun i => -1 - i
|}.

(** A two-node machine with four cores: cores 0 and 2 on node 0, cores
    1 and 3 on node 1. *)
Definition env_two_nodes : Env := {|
  proc_cpuinfo := Some synthetic_cpuinfo;
  FLAGS_num_cores := 0;
  get_nprocs_conf := 4;
  sched_getcpu := 6;
  sys_node_dir := Some ["has_cpu"; "node0"; "node1"; "online"];
  cpu_node_link := fun core node => node =? core mod 2;
  fresh_int := fun i => 7 * i + 3
|}.

(** The same machine, with other leftovers in freshly allocated storage. *)
Definition env_two_nodes_stale : Env := {|
  proc_cpuinfo := Some synthetic_cpuinfo;
  FLAGS_num_cores := 0;
  get_nprocs_conf := 4;
  sched_getcpu := 6;
  sys_node_dir := Some ["has_cpu"; "node0"; "node1"; "online"];
  cpu_node_link := fun core node => node =? core mod 2;
  fresh_int := fun i => 100 - i
|}.

Definition build_x86_64 : Build := {| x86_64 := true; HAVE_SCHED_GETCPU := true |}.

(** ** Specification-side definitions *)

(** The node of [core] in a core-to-node array. *)
Definition node_of (c2n : list Z) (core : Z) : Z :=
  default 0 (c2n !! Z.to_nat core).

(** The cores below [bound] that sit on [node], in ascending order. *)
Definition cores_of (c2n : list Z) (node bound : Z) : list Z :=
  filter (fun core => node_of c2n core = node) (seqZ 0 bound).

(** The number of cores below [core] on the node of [core]. *)
Definition local_rank (c2n : list Z) (core : Z) : Z :=
  Z.of_nat (length (cores_of c2n (node_of c2n core) core)).

(** The two derived maps after the cores below [bound] are placed. *)
Definition derived_nodes (c2n : list Z) (max_nodes bound : Z) : list (list Z) :=
  (fun node => cores_of c2n node bound) <$> seqZ 0 max_nodes.

Definition derived_idx (c2n : list Z) (bound : Z) : list Z :=
  local_rank c2n <$> seqZ 0 bound.

(** Every entry of a core-to-node array names a node in [0, max_nodes). *)
Definition nodes_in_range (max_nodes : Z) (c2n : list Z) : Prop :=
  Forall (fun node => 0 ≤ node < max_nodes) c2n.

(** The state [InitNumaNodeToCores] expects: one array entry per
    possible core, and the node-to-cores table still empty. *)
Definition numa_ready (st : CpuInfo) : Prop :=
  numa_node_to_cores_ st = [] ∧
  Z.of_nat (length (core_to_numa_node_ st)) = max_num_cores_ st.

(** What discovery finds: the number of nodes, and the node of each of
    the [n] possible cores. *)
Definition discovered_nodes (env : Env) : Z :=
  match sys_node_dir env with
  | None => 1
  | Some entries =>
      let counted :=
        Z.of_nat (length (List.filter (Str.starts_with "node") entries)) in
      if counted =? 0 then 1 else counted
  end.

Definition discovered_map (env : Env) (n : Z) : list Z :=
  match sys_node_dir env with
  | None => (fun _ => 0) <$> seqZ 0 n
  | Some _ => discover_node env (discovered_nodes env) <$> seqZ 0 n
  end.

(** What is left to do for the loop over a stream, as a number of
    iterations. *)
Definition stream_measure (f : ifstream) : nat :=
  if failbit f then 1
  else if eofbit f then 2
  else String.length (unread f) + 3.

(** The two derived maps are the inverse of the core-to-node array
    [c2n] (sections 3 and 8 of the specification): the list of a node
    is the ascending list of the cores mapped to it, the lists together
    are a rearrangement of [0, max_cores), and a core is found in the
    list of its node at its local index. *)
Definition inverse_maps (c2n : list Z) (max_nodes : Z)
    (node_to_cores : list (list Z)) (core_idx : list Z) : Prop :=
  let max_cores := Z.of_nat (length c2n) in
  Z.of_nat (length node_to_cores) = max_nodes ∧
  Z.of_nat (length core_idx) = max_cores ∧
  (∀ node, 0 ≤ node < max_nodes →
     node_to_cores !! Z.to_nat node =
     Some (filter (fun core => c2n !! Z.to_nat core = Some node) (seqZ 0 max_cores))) ∧
  concat node_to_cores ≡ₚ seqZ 0 max_cores ∧
  NoDup (concat node_to_cores) ∧
  (∀ core node, 0 ≤ core → c2n !! Z.to_nat core = Some node →
     ∃ idx cores,
       core_idx !! Z.to_nat core = Some idx ∧ 0 ≤ idx ∧
       node_to_cores !! Z.to_nat node = Some cores ∧
       cores !! Z.to_nat idx = Some core).

(** The text of a file cut at its newlines. *)
Fixpoint lines (s : string) : list string :=
  match s with
  | EmptyString => [EmptyString]
  | String c rest =>
      if Ascii.eqb c "010"%char then EmptyString :: lines rest
      else
        match lines rest with
        | l :: ls => String c l :: ls
        | [] => [String c EmptyString]
        end
  end.

(** A line is a recognized record if [Init] finds a colon in it and
    the key before the colon is one of the four it compares with. *)
Definition recognized (line : string) : bool :=
  match Str.find ":"%char line with
  | None => false
  | Some colon =>
      let name := line_name line colon in
      String.eqb name "flags" || String.eqb name "cpu MHz" ||
      String.eqb name "processor" || String.eqb name "model name"
  end.

(** The descriptor table is absent, or none of its lines is a
    recognized record (the empty table has the single line [""]). *)
Definition no_recognized_record (table : option string) : Prop :=
  match table with
  | None => True
  | Some contents => Forall (fun l => recognized l = false) (lines contents)
  end.

(** A machine whose NUMA directory lists exactly one node, with every
    core linked to it. *)
Definition single_node_machine (env : Env) : Prop :=
  ∃ entries,
    sys_node_dir env = Some entries ∧
    List.filter (Str.starts_with "node") entries = ["node0"] ∧
    ∀ core, cpu_node_link env core 0 = true.

(** One node directory among other entries, four cores linked to it. *)
Definition env_one_node : Env := {|
  proc_cpuinfo := Some synthetic_cpuinfo;
  FLAGS_num_cores := 0;
  get_nprocs_conf := 4;
  sched_getcpu := 1;
  sys_node_dir := Some ["has_memory"; "node0"; "possible"];
  cpu_node_link := fun _ node => node =? 0;
  fresh_int := fun _ => 1
|}.

(** A table without a single recognized record. *)
Definition garbage_cpuinfo : string :=
  "vendor_id : GenuineIntel" ++ newline ++
  "flags: avx2 ssse3" ++ newline ++
  "no colon on this line" ++ newline ++
  ": processor" ++ newline.

(** The state after [Init] on the two-node machine. *)
Definition two_node_state : CpuInfo := {|
  initialized_ := true;
  hardware_flags_ := 102;
  original_hardware_flags_ := 102;
  cycles_per_ms_ := 1000000;
  num_cores_ := 2;
  max_num_cores_ := 4;
  model_name_ := "unknown";
  max_num_numa_nodes_ := 2;
  core_to_numa_node_ := [0; 1; 0; 1];
  numa_node_to_cores_ := [[0; 2]; [1; 3]];
  numa_node_core_idx_ := [0; 0; 1; 1]
|}.

(** A run of [GetCurrentCore] calls, one per environment of [envs],
    with the occurrence counter of its [LOG_FIRST_N] statement carried
    from each call to the next. *)
Fixpoint GetCurrentCore_calls (b : Build) (envs : list Env) (st : CpuInfo)
    (occurrences : Z) : result (list core_query) :=
  match envs with
  | [] => Ok []
  | env :: rest =>
      q ← GetCurrentCore b env st occurrences;
      qs ← GetCurrentCore_calls b rest st (log_occurrences q);
      Ok (q :: qs)
  end.

(** ** The lines the scanning loop of [Init] sees *)

(** The values [line] takes in the body of [while (cpuinfo) { getline ... }]
    on a stream over [s]: the lines of [s], and, when the text does not
    end in a newline, its last line once more (the failed [getline]
    leaves the old contents in [line]). *)
Definition seen_of_string (s : string) : list string :=
  match last (lines s) with
  | Some l => if String.eqb l "" then lines s else (lines s ++ [l])%list
  | None => lines s
  end.

Definition seen_lines (table : option string) : list string :=
  match table with
  | Some contents => seen_of_string contents
  | None => []
  end.

(** The lines the loop has still to see from stream state [f] with
    [line] holding the last line read. *)
Definition pending_lines (f : ifstream) (line : string) : list string :=
  if failbit f then []
  else if eofbit f then [line]
  else seen_of_string (unread f).

(** The [name : value] record [Init] reads from a line, if it has a
    colon. *)
Definition record_of (line : string) : option (string * string) :=
  match Str.find ":"%char line with
  | Some colon => Some (line_name line colon, line_value line colon)
  | None => None
  end.

(** The value of a line whose key is [key]. *)
Definition value_of (key line : string) : option string :=
  match record_of line with
  | Some (name, value) => if String.eqb name key then Some value else None
  | None => None
  end.

Definition has_key (key line : string) : bool :=
  match value_of key line with Some _ => true | None => false end.

(** Scanning a list of lines in order. *)
Definition scan_lines `{CpuFlags} `{FloatModel} (ls : list string) (v : scan_vars)
  : scan_vars :=
  fold_left (fun v l => scan_line l v) ls v.

(** The enabled mask has no bit outside the hardware-supported mask. *)
Definition enabled_subset (st : CpuInfo) : Prop :=
  Z.land (hardware_flags_ st) (Z.lnot (original_hardware_flags_ st)) = 0.

(** A sequence of [EnableFeature(flag, enable)] calls. *)
Definition toggle_features (ops : list (Z * bool)) (st : CpuInfo) : result CpuInfo :=
  for_each (fun op st => EnableFeature op.1 op.2 st) ops st.

(** ** The governor and turbo checks *)

(** [WarnIfFileNotEqual]: [fs] gives the contents of the files that
    can be opened; the result is what is written to the error log (one
    message or none). *)
Definition WarnIfFileNotEqual (fs : string → option string)
    (filename expected warning_text : string) : list string :=
  let file := ifstream_open (fs filename) in
  if negb (stream_ok file) then []
  else
    let '(_, line) := getline file "" in
    if negb (String.eqb line expected) then
      ["Expected " ++ expected ++ ", actual " ++ line ++ newline ++ warning_text]
    else [].

Definition no_turbo_file : string := "/sys/devices/system/cpu/intel_pstate/no_turbo".

Definition turbo_warning : string :=
  "WARNING: CPU turbo is enabled. This setting can change the clock frequency of CPU " ++
  "cores during the benchmark run, which can lead to inaccurate results. You can " ++
  "disable CPU turbo by writing a 1 to " ++
  "/sys/devices/system/cpu/intel_pstate/no_turbo. Note that changing the governor to " ++
  "'performance' will reset this to 0.".

(** [VerifyTurboDisabled] *)
Definition VerifyTurboDisabled (fs : string → option string) : list string :=
  WarnIfFileNotEqual fs no_turbo_file "1" turbo_warning.

(** Modelled from the spec: the accessor [num_cores()] is defined
    inline in the header [util/cpu-info.h], which is not part of the
    source file.  Section 4.2: it exposes the active core count;
    section 4.5: an assertion on [initialized_] guards the accessors. *)
Definition num_cores (st : CpuInfo) : result Z :=
  _ ← DCHECK (initialized_ st);
  Ok (num_cores_ st).

Definition governor_format : string :=
  "/sys/devices/system/cpu/cpu$0/cpufreq/scaling_governor".

Definition governor_warning_format : string :=
  "WARNING: CPU $0 is not using 'performance' governor. Note that changing the " ++
  "governor to 'performance' will reset the no_turbo setting to 0.".

(** [VerifyPerformanceGovernor].  [Substitute] (gutil, not part of the
    source file) is a parameter.  The loop condition calls
    [num_cores()] before every iteration; nothing in the loop changes
    the state, so it is evaluated once here. *)
Definition VerifyPerformanceGovernor (Substitute : string → list Z → string)
    (fs : string → option string) (st : CpuInfo) : result (list string) :=
  n ← num_cores st;
  for_each
    (fun cpu_id log =>
       let governor_file := Substitute governor_format [cpu_id] in
       let warning_text := Substitute governor_warning_format [cpu_id] in
       Ok (log ++ WarnIfFileNotEqual fs governor_file "performance" warning_text)%list)
    (int_range n) [].

(** ** More concrete inputs *)

Definition tab : string := String "009"%char EmptyString.

(** A table with tabs before the colons, as the kernel writes it, a
    key glued to its colon, and no newline after the last line. *)
Definition kernel_style_cpuinfo : string :=
  "processor" ++ tab ++ ": 0" ++ newline ++
  "model name" ++ tab ++ ": Example CPU @ 2.40GHz" ++ newline ++
  "flags" ++ tab ++ tab ++ ": fpu sse4_2 popcnt avx2" ++ newline ++
  "processor:1" ++ newline ++
  "processor" ++ tab ++ ": 2".

(** A stand-in for [Substitute]: [$k] is replaced by the decimal text
    of the [k]-th argument. *)
Fixpoint decimal_substitute (format : string) (args : list Z) : string :=
  match format with
  | EmptyString => EmptyString
  | String c rest =>
      if Ascii.eqb c "$"%char then
        match rest with
        | String d rest' =>
            default "" (pretty <$> args !! (nat_of_ascii d - 48)%nat)
            ++ decimal_substitute rest' args
        | EmptyString => EmptyString
        end
      else String c (decimal_substitute rest args)
  end.

(** Two cores with a governor file: core 0 on [performance], core 1 on
    [powersave]; no [no_turbo] file. *)
Definition governor_files (path : string) : option string :=
  if String.eqb path (decimal_substitute governor_format [0]) then
    Some ("performance" ++ newline)
  else if String.eqb path (decimal_substitute governor_format [1]) then
    Some ("powersave" ++ newline)
  else None.

Definition env_kernel_style : Env := env_of_table (Some kernel_style_cpuinfo).

(** A NUMA directory that exists but lists no node. *)
Definition env_empty_numa_dir : Env := {|
  proc_cpuinfo := None;
  FLAGS_num_cores := 0;
  get_nprocs_conf := 4;
  sched_getcpu := 0;
  sys_node_dir := Some ["online"; "possible"];
  cpu_node_link := fun _ _ => true;
  fresh_int := fun i => i + 5
|}.

(** ** Loops in the [result] monad *)

Lemma for_each_app {St X} (body : X → St → result St) (xs ys : list X) (s : St) :
  for_each body (xs ++ ys)%list s = s' ← for_each body xs s; for_each body ys s'.
Proof.
  revert s. induction xs as [|x xs IH]; intros s; simpl; [done|].
  destruct (body x s) as [s1|f]; simpl; [apply IH | done].
Qed.

Lemma int_range_to_nat (n : Z) : int_range (Z.of_nat (Z.to_nat n)) = int_range n.
Proof. unfold int_range, seqZ. by rewrite Nat2Z.id. Qed.

(** The loop rule for [for (int k = 0; k < n; ++k)]: an invariant that
    every iteration re-establishes holds at the end, and the loop
    returns. *)
Lemma for_each_range_inv {St} (body : Z → St → result St) (P : Z → St → Prop)
    (n : Z) (s0 : St) :
  P 0 s0 →
  (∀ k s, 0 ≤ k < n → P k s → ∃ s', body k s = Ok s' ∧ P (k + 1) s') →
  ∃ s', for_each body (int_range n) s0 = Ok s' ∧ P (Z.max 0 n) s'.
Proof.
  intros Hinit Hstep.
  assert (∀ i : nat, Z.of_nat i ≤ Z.max 0 n →
            ∃ s', for_each body (int_range (Z.of_nat i)) s0 = Ok s' ∧ P (Z.of_nat i) s')
    as Hall.
  { induction i as [|i IH]; intros Hi.
    - exists s0. by split.
    - destruct IH as (s1 & Hrun & HP); [lia|].
      destruct (Hstep (Z.of_nat i) s1) as (s2 & Hbody & HP2); [lia|done|].
      exists s2. unfold int_range in *. rewrite seqZ_S, for_each_app, Hrun. simpl.
      rewrite Z.add_0_l, Hbody. split; [done|].
      by replace (Z.of_nat (S i)) with (Z.of_nat i + 1) by lia. }
  destruct (Hall (Z.to_nat n)) as (s' & Hrun & HP); [lia|].
  exists s'. rewrite int_range_to_nat in Hrun. split; [done|].
  by replace (Z.max 0 n) with (Z.of_nat (Z.to_nat n)) by lia.
Qed.



(** ** Array accesses *)

Lemma vec_at_ok {A} (v : list A) (i : Z) (a : A) :
  0 ≤ i → v !! Z.to_nat i = Some a → vec_at v i = Ok a.
Proof. intros Hi Hl. unfold vec_at. rewrite bool_decide_true by done. by rewrite Hl. Qed.



Lemma vec_set_ok {A} (v : list A) (i : Z) (a : A) :
  0 ≤ i < Z.of_nat (length v) → vec_set v i a = Ok (<[Z.to_nat i := a]> v).
Proof. intros Hi. unfold vec_set. by rewrite bool_decide_true. Qed.



(** ** The derivation pass *)

Lemma node_of_lookup (c2n : list Z) (core node : Z) :
  c2n !! Z.to_nat core = Some node → node_of c2n core = node.
Proof. unfold node_of. by intros ->. Qed.

Lemma cores_of_succ (c2n : list Z) (node k : Z) :
  0 ≤ k →
  cores_of c2n node (k + 1) =
  (cores_of c2n node k ++ if decide (node_of c2n k = node) then [k] else [])%list.
Proof.
  intros Hk. unfold cores_of.
  rewrite seqZ_app by lia. rewrite filter_app. by f_equal.
Qed.

Lemma derived_idx_succ (c2n : list Z) (k : Z) :
  0 ≤ k → derived_idx c2n (k + 1) = (derived_idx c2n k ++ [local_rank c2n k])%list.
Proof.
  intros Hk. unfold derived_idx.
  rewrite seqZ_app by lia. rewrite fmap_app. by f_equal.
Qed.

Lemma length_derived_nodes (c2n : list Z) (max_nodes k : Z) :
  length (derived_nodes c2n max_nodes k) = Z.to_nat max_nodes.
Proof. unfold derived_nodes. by rewrite length_fmap, length_seqZ. Qed.

Lemma length_derived_idx (c2n : list Z) (k : Z) :
  length (derived_idx c2n k) = Z.to_nat k.
Proof. unfold derived_idx. by rewrite length_fmap, length_seqZ. Qed.

Lemma lookup_derived_nodes (c2n : list Z) (max_nodes k node : Z) :
  0 ≤ node < max_nodes →
  derived_nodes c2n max_nodes k !! Z.to_nat node = Some (cores_of c2n node k).
Proof.
  intros Hn. unfold derived_nodes. rewrite list_lookup_fmap.
  rewrite lookup_seqZ_lt by lia. simpl. do 2 f_equal. lia.
Qed.

Lemma derived_nodes_succ (c2n : list Z) (max_nodes k : Z) :
  0 ≤ k → 0 ≤ node_of c2n k < max_nodes →
  <[Z.to_nat (node_of c2n k) := (cores_of c2n (node_of c2n k) k ++ [k])%list]>
    (derived_nodes c2n max_nodes k)
  = derived_nodes c2n max_nodes (k + 1).
Proof.
  intros Hk Hnode. apply list_eq. intros i.
  destruct (decide (i < Z.to_nat max_nodes)%nat) as [Hi|Hi].
  - assert (∃ j, 0 ≤ j < max_nodes ∧ i = Z.to_nat j) as (j & Hj & ->)
      by (exists (Z.of_nat i); lia).
    rewrite (lookup_derived_nodes _ _ (k + 1)) by lia.
    rewrite cores_of_succ by lia.
    destruct (decide (node_of c2n k = j)) as [<-|Hne].
    + by rewrite list_lookup_insert_eq by (rewrite length_derived_nodes; lia).
    + rewrite list_lookup_insert_ne by lia.
      rewrite lookup_derived_nodes by lia. by rewrite app_nil_r.
  - rewrite !(lookup_ge_None_2) ; [done| |].
    + rewrite length_derived_nodes. lia.
    + rewrite length_insert, length_derived_nodes. lia.
Qed.

Lemma place_core_step (c2n idx0 : list Z) (max_nodes n k : Z) :
  Z.of_nat (length c2n) = n →
  nodes_in_range max_nodes c2n →
  Z.of_nat (length idx0) = n →
  0 ≤ k < n →
  place_core c2n k
    (derived_nodes c2n max_nodes k, (derived_idx c2n k ++ drop (Z.to_nat k) idx0)%list)
  = Ok (derived_nodes c2n max_nodes (k + 1),
        (derived_idx c2n (k + 1) ++ drop (Z.to_nat (k + 1)) idx0)%list).
Proof.
  intros Hlen Hrange Hidx Hk. unfold place_core. simpl.
  destruct (lookup_lt_is_Some_2 c2n (Z.to_nat k)) as [node Hnode]; [lia|].
  pose proof (Forall_lookup_1 _ _ _ _ Hrange Hnode) as Hin. simpl in Hin.
  pose proof (node_of_lookup _ _ _ Hnode) as Hof.
  rewrite (vec_at_ok _ _ node) by (done || lia). simpl.
  rewrite (vec_at_ok _ _ (cores_of c2n node k))
    by (lia || by apply lookup_derived_nodes). simpl.
  destruct (lookup_lt_is_Some_2 idx0 (Z.to_nat k)) as [old Hold]; [lia|].
  rewrite (vec_set_ok (derived_idx c2n k ++ drop (Z.to_nat k) idx0)%list k)
    by (rewrite length_app, length_derived_idx, length_drop; lia).
  simpl. rewrite vec_set_ok by (rewrite length_derived_nodes; lia). simpl.
  do 2 f_equal.
  - rewrite <- Hof. apply derived_nodes_succ; [lia | by rewrite Hof].
  - rewrite insert_app_r_alt by (rewrite length_derived_idx; lia).
    rewrite length_derived_idx, Nat.sub_diag.
    rewrite (drop_S _ _ _ Hold). simpl.
    rewrite derived_idx_succ by lia. rewrite <- app_assoc. simpl.
    unfold local_rank. rewrite Hof.
    by replace (Z.to_nat (k + 1)) with (S (Z.to_nat k)) by lia.
Qed.

Lemma derived_nodes_0 (c2n : list Z) (max_nodes : Z) :
  derived_nodes c2n max_nodes 0 = replicate (Z.to_nat max_nodes) [].
Proof.
  apply list_eq. intros i. unfold derived_nodes. rewrite list_lookup_fmap.
  destruct (decide (i < Z.to_nat max_nodes)%nat) as [Hi|Hi].
  - rewrite lookup_seqZ_lt by lia. by rewrite lookup_replicate_2 by lia.
  - rewrite lookup_seqZ_ge by lia. symmetry. apply lookup_replicate_None. lia.
Qed.

(** The loop of [InitNumaNodeToCores] computes the two derived maps. *)
Lemma place_core_loop (c2n idx0 : list Z) (max_nodes n : Z) :
  Z.of_nat (length c2n) = n →
  nodes_in_range max_nodes c2n →
  Z.of_nat (length idx0) = n →
  for_each (place_core c2n) (int_range n) (replicate (Z.to_nat max_nodes) [], idx0)
  = Ok (derived_nodes c2n max_nodes n, derived_idx c2n n).
Proof.
  intros Hlen Hrange Hidx.
  destruct (for_each_range_inv (place_core c2n)
    (fun k maps => maps = (derived_nodes c2n max_nodes k,
                           (derived_idx c2n k ++ drop (Z.to_nat k) idx0)%list))
    n (replicate (Z.to_nat max_nodes) [], idx0)) as (maps & Hrun & Hmaps).
  - by rewrite derived_nodes_0.
  - intros k s Hk ->. eexists. split; [|done]. by eapply place_core_step.
  - rewrite Hrun, Hmaps. replace (Z.max 0 n) with n by lia.
    rewrite drop_ge by lia. by rewrite app_nil_r.
Qed.

(** What [InitNumaNodeToCores] returns on a total core-to-node map. *)
Lemma InitNumaNodeToCores_ok (st : CpuInfo) :
  numa_ready st →
  0 ≤ max_num_numa_nodes_ st →
  nodes_in_range (max_num_numa_nodes_ st) (core_to_numa_node_ st) →
  InitNumaNodeToCores st =
  Ok (with_numa_node_core_idx_
        (derived_idx (core_to_numa_node_ st) (max_num_cores_ st))
        (with_numa_node_to_cores_
           (derived_nodes (core_to_numa_node_ st) (max_num_numa_nodes_ st)
              (max_num_cores_ st)) st)).
Proof.
  intros [Hempty Hlen] Hnodes Hrange. unfold InitNumaNodeToCores.
  rewrite Hempty. simpl. unfold vec_resize.
  rewrite !bool_decide_true by lia. simpl.
  rewrite resize_nil.
  rewrite (place_core_loop _ _ (max_num_numa_nodes_ st) (max_num_cores_ st)); try done.
  rewrite length_resize. lia.
Qed.

(** Cores on distinct nodes are distinct, and every core is on its
    node: the flattened table is a rearrangement of the cores whose
    node is below the number of nodes. *)
Lemma filter_disjoint_app {A} (P Q : A → Prop) `{∀ x, Decision (P x)}
    `{∀ x, Decision (Q x)} (l : list A) :
  (∀ x, P x → Q x → False) →
  (filter P l ++ filter Q l)%list ≡ₚ filter (fun x => P x ∨ Q x) l.
Proof.
  intros Hdisj. induction l as [|x l IH]; [done|].
  rewrite !filter_cons.
  destruct (decide (P x)) as [HP|HP], (decide (Q x)) as [HQ|HQ].
  - by destruct (Hdisj x).
  - rewrite decide_True by auto. simpl. by rewrite IH.
  - rewrite decide_True by auto. rewrite <- Permutation_middle. by rewrite IH.
  - rewrite decide_False by tauto. done.
Qed.

Lemma concat_derived_nodes (c2n : list Z) (max_nodes : nat) (n : Z) :
  concat (derived_nodes c2n (Z.of_nat max_nodes) n)
  ≡ₚ filter (fun core => 0 ≤ node_of c2n core < Z.of_nat max_nodes) (seqZ 0 n).
Proof.
  unfold derived_nodes. induction max_nodes as [|m IH].
  - rewrite (seqZ_nil 0 (Z.of_nat 0)) by done. simpl.
    induction (seqZ 0 n) as [|x l IHl]; [done|].
    by rewrite filter_cons_False by lia.
  - rewrite seqZ_S, fmap_app, concat_app, IH. simpl. rewrite app_nil_r.
    unfold cores_of. rewrite filter_disjoint_app by lia.
    rewrite (list_filter_iff _
               (fun core => 0 ≤ node_of c2n core < Z.of_nat (S m))); [done|].
    intros x. lia.
Qed.

Lemma filter_all {A} (P : A → Prop) `{∀ x, Decision (P x)} (l : list A) :
  Forall P l → filter P l = l.
Proof.
  induction 1 as [|x l HP _ IH]; [done|].
  rewrite filter_cons_True by done. by rewrite IH.
Qed.

Lemma concat_derived_nodes_all (c2n : list Z) (max_nodes : Z) :
  0 ≤ max_nodes →
  nodes_in_range max_nodes c2n →
  concat (derived_nodes c2n max_nodes (Z.of_nat (length c2n)))
  ≡ₚ seqZ 0 (Z.of_nat (length c2n)).
Proof.
  intros Hn Hrange.
  replace max_nodes with (Z.of_nat (Z.to_nat max_nodes)) at 1 by lia.
  rewrite concat_derived_nodes. rewrite filter_all; [done|].
  apply Forall_seqZ. intros core Hcore. rewrite Z2Nat.id by lia.
  destruct (lookup_lt_is_Some_2 c2n (Z.to_nat core)) as [node Hnode]; [lia|].
  rewrite (node_of_lookup _ _ _ Hnode).
  by apply (Forall_lookup_1 _ _ _ _ Hrange Hnode).
Qed.

(** A core sits in the list of its node at its local rank. *)
Lemma cores_of_local_rank (c2n : list Z) (core n : Z) :
  0 ≤ core < n →
  cores_of c2n (node_of c2n core) n !! Z.to_nat (local_rank c2n core) = Some core.
Proof.
  intros Hcore. unfold local_rank. rewrite Nat2Z.id. unfold cores_of.
  replace n with (core + (1 + (n - core - 1))) by lia.
  rewrite seqZ_app by lia. rewrite (seqZ_cons (0 + core)) by lia.
  rewrite filter_app, filter_cons_True by (f_equal; lia).
  rewrite Z.add_0_l. by apply list_lookup_middle.
Qed.

Lemma elem_of_cores_of (c2n : list Z) (node core : Z) :
  core ∈ cores_of c2n node (Z.of_nat (length c2n)) ↔
  0 ≤ core ∧ c2n !! Z.to_nat core = Some node.
Proof.
  unfold cores_of. rewrite list_elem_of_filter, elem_of_seqZ. split.
  - intros [Hnode Hcore].
    destruct (lookup_lt_is_Some_2 c2n (Z.to_nat core)) as [x Hx]; [lia|].
    rewrite (node_of_lookup _ _ _ Hx) in Hnode. subst. split; [lia | done].
  - intros [Hcore Hlook]. apply lookup_lt_Some in Hlook as Hlt.
    split; [by apply node_of_lookup | lia].
Qed.

(** ** Filling the core-to-node array *)

(** A loop that stores [g k] at index [k] for every [k] below the
    length of the array leaves the array [g 0, g 1, ...]. *)
Lemma fill_loop (body : Z → list Z → result (list Z)) (g : Z → Z) (n : Z)
    (fresh : list Z) :
  Z.of_nat (length fresh) = n →
  (∀ k a, 0 ≤ k < n → Z.of_nat (length a) = n → body k a = vec_set a k (g k)) →
  for_each body (int_range n) fresh = Ok (g <$> seqZ 0 n).
Proof.
  intros Hlen Hbody.
  destruct (for_each_range_inv body
    (fun k a => a = ((g <$> seqZ 0 k) ++ drop (Z.to_nat k) fresh)%list)
    n fresh) as (a & Hrun & Ha).
  - done.
  - intros k a Hk ->.
    assert (length (g <$> seqZ 0 k) = Z.to_nat k) as Hpre
      by (by rewrite length_fmap, length_seqZ).
    rewrite Hbody; [|done|rewrite length_app, Hpre, length_drop; lia].
    rewrite vec_set_ok by (rewrite length_app, Hpre, length_drop; lia).
    eexists. split; [done|].
    destruct (lookup_lt_is_Some_2 fresh (Z.to_nat k)) as [old Hold]; [lia|].
    rewrite insert_app_r_alt by lia. rewrite Hpre, Nat.sub_diag.
    rewrite (drop_S _ _ _ Hold). simpl.
    rewrite seqZ_app by lia. rewrite fmap_app, <- app_assoc. simpl.
    by replace (Z.to_nat (k + 1)) with (S (Z.to_nat k)) by lia.
  - rewrite Hrun, Ha. replace (Z.max 0 n) with n by lia.
    rewrite drop_ge by lia. by rewrite app_nil_r.
Qed.

Lemma fmap_node_of_seqZ (v : list Z) :
  node_of v <$> seqZ 0 (Z.of_nat (length v)) = v.
Proof.
  apply list_eq. intros i. rewrite list_lookup_fmap.
  destruct (decide (i < length v)%nat) as [Hi|Hi].
  - rewrite lookup_seqZ_lt by lia. simpl. unfold node_of.
    rewrite Z.add_0_l, Nat2Z.id.
    by destruct (lookup_lt_is_Some_2 v i Hi) as [x ->].
  - rewrite lookup_seqZ_ge by lia. by rewrite lookup_ge_None_2 by lia.
Qed.

(** ** Discovery *)

Lemma discovered_nodes_pos (env : Env) : 1 ≤ discovered_nodes env.
Proof.
  unfold discovered_nodes. destruct (sys_node_dir env) as [entries|]; [|done].
  simpl. case_match; [done|]. apply Z.eqb_neq in H. lia.
Qed.

Lemma discover_node_in_range (env : Env) (max_nodes core : Z) :
  1 ≤ max_nodes → 0 ≤ discover_node env max_nodes core < max_nodes.
Proof.
  intros Hpos. unfold discover_node.
  destruct (List.find _ _) as [node|] eqn:Hfind; [|lia].
  apply find_some in Hfind as [Hin _].
  apply list_elem_of_In, elem_of_seqZ in Hin. lia.
Qed.

Lemma discovered_map_in_range (env : Env) (n : Z) :
  nodes_in_range (discovered_nodes env) (discovered_map env n).
Proof.
  pose proof (discovered_nodes_pos env) as Hpos.
  unfold nodes_in_range, discovered_map.
  destruct (sys_node_dir env); apply Forall_fmap, Forall_forall; intros core _; simpl.
  - by apply discover_node_in_range.
  - lia.
Qed.

Lemma length_discovered_map (env : Env) (n : Z) :
  length (discovered_map env n) = Z.to_nat n.
Proof.
  unfold discovered_map.
  destruct (sys_node_dir env); by rewrite length_fmap, length_seqZ.
Qed.

(** [InitNuma] returns, with the discovered topology and the maps
    derived from it. *)
Lemma InitNuma_ok (env : Env) (st : CpuInfo) :
  numa_node_to_cores_ st = [] →
  0 ≤ max_num_cores_ st →
  InitNuma env st =
  Ok (with_numa_node_core_idx_
        (derived_idx (discovered_map env (max_num_cores_ st)) (max_num_cores_ st))
        (with_numa_node_to_cores_
           (derived_nodes (discovered_map env (max_num_cores_ st))
              (discovered_nodes env) (max_num_cores_ st))
           (with_core_to_numa_node_ (discovered_map env (max_num_cores_ st))
              (with_max_num_numa_nodes_ (discovered_nodes env) st)))).
Proof.
  intros Hempty Hcores. unfold InitNuma, new_int_array.
  rewrite bool_decide_true by done. simpl.
  pose proof (discovered_nodes_pos env) as Hpos.
  pose proof (discovered_map_in_range env (max_num_cores_ st)) as Hrange.
  pose proof (length_discovered_map env (max_num_cores_ st)) as Hlen.
  unfold discovered_map, discovered_nodes in *.
  destruct (sys_node_dir env) as [entries|]; simpl in *.
  - rewrite (fill_loop _
      (discover_node env
         (if Z.of_nat (length (List.filter (Str.starts_with "node") entries)) =? 0
          then 1
          else Z.of_nat (length (List.filter (Str.starts_with "node") entries)))));
      [|rewrite length_fmap, length_seqZ; lia|done].
    simpl. rewrite InitNumaNodeToCores_ok; [done| |simpl; lia|done].
    split; [done|]. simpl. lia.
  - rewrite (fill_loop _ (fun _ => 0)); [|rewrite length_fmap, length_seqZ; lia|done].
    simpl. rewrite InitNumaNodeToCores_ok; [done| |simpl; lia|done].
    split; [done|]. simpl. lia.
Qed.

(** ** The test override *)

Lemma InitFakeNumaForTest_ok (max_nodes : Z) (injected : list Z) (st : CpuInfo) :
  Z.of_nat (length injected) = max_num_cores_ st →
  Z.of_nat (length (core_to_numa_node_ st)) = max_num_cores_ st →
  0 ≤ max_nodes →
  nodes_in_range max_nodes injected →
  InitFakeNumaForTest max_nodes injected st =
  Ok (with_numa_node_core_idx_ (derived_idx injected (max_num_cores_ st))
        (with_numa_node_to_cores_
           (derived_nodes injected max_nodes (max_num_cores_ st))
           (with_core_to_numa_node_ injected
              (with_max_num_numa_nodes_ max_nodes st)))).
Proof.
  intros Hlen Halloc Hnodes Hrange. unfold InitFakeNumaForTest.
  rewrite bool_decide_true by done. simpl.
  rewrite (fill_loop _ (node_of injected)); [|done|].
  - replace (node_of injected <$> seqZ 0 (max_num_cores_ st)) with injected
      by (by rewrite <- Hlen, fmap_node_of_seqZ).
    simpl. rewrite InitNumaNodeToCores_ok; [reflexivity| |done|done].
    split; [done|]. simpl. lia.
  - intros k a Hk _.
    destruct (lookup_lt_is_Some_2 injected (Z.to_nat k)) as [x Hx]; [lia|].
    rewrite (vec_at_ok _ _ x) by (lia || done). simpl.
    by rewrite (node_of_lookup _ _ _ Hx).
Qed.

(** The copy loop alone: it returns the injected array whatever the
    node numbers are. *)
Lemma copy_loop_ok (injected old : list Z) (n : Z) :
  Z.of_nat (length injected) = n →
  Z.of_nat (length old) = n →
  for_each (fun i a => x ← vec_at injected i; vec_set a i x) (int_range n) old
  = Ok injected.
Proof.
  intros Hlen Hold. rewrite (fill_loop _ (node_of injected)); [|done|].
  - by rewrite <- Hlen, fmap_node_of_seqZ.
  - intros k a Hk _.
    destruct (lookup_lt_is_Some_2 injected (Z.to_nat k)) as [x Hx]; [lia|].
    rewrite (vec_at_ok _ _ x) by (lia || done). simpl.
    by rewrite (node_of_lookup _ _ _ Hx).
Qed.

(** ** When the derivation pass leaves its tables *)





(** ** Reading lines *)

Lemma read_until_newline_lines (s l rest : string) (hit_eof : bool) :
  read_until_newline s = (l, rest, hit_eof) →
  lines s = (l :: if hit_eof then [] else lines rest)%list ∧
  (String.length rest ≤ String.length s)%nat ∧
  (hit_eof = false → String.length rest < String.length s)%nat ∧
  (hit_eof = true → rest = EmptyString).
Proof.
  revert l rest hit_eof. induction s as [|c s IH]; intros l rest hit_eof; simpl.
  - intros [= <- <- <-]. by repeat split.
  - destruct (Ascii.eqb c "010") eqn:Hc.
    + intros [= <- <- <-]. split; [done|]. simpl. repeat split; (lia || done).
    + destruct (read_until_newline s) as [[l0 rest0] eof0] eqn:Hs.
      intros [= <- <- <-].
      destruct (IH _ _ _ eq_refl) as (Hlines & Hle & Hlt & Hrest).
      rewrite Hlines. split; [done|]. split; [lia|]. split; [|done].
      intros Heof. specialize (Hlt Heof). lia.
Qed.

Lemma scan_fuel_enough (f : ifstream) : (stream_measure f ≤ scan_fuel f)%nat.
Proof. unfold stream_measure, scan_fuel. repeat case_match; lia. Qed.

Section Scan.
Context `{CpuFlags} `{FloatModel}.

(** The loop over [/proc/cpuinfo] ends: with [stream_measure] units
    of fuel, and so with [scan_fuel], it returns. *)
Lemma scan_loop_terminates (fuel : nat) (f : ifstream) (line : string) (v : scan_vars) :
  (stream_measure f ≤ fuel)%nat → ∃ v', scan_loop fuel f line v = Some v'.
Proof.
  revert f line v. induction fuel as [|fuel IH]; intros f line v Hfuel.
  - unfold stream_measure in Hfuel. repeat case_match; lia.
  - simpl. unfold stream_ok, getline, stream_good.
    destruct f as [s eof fail]. unfold stream_measure in Hfuel. simpl in *.
    destruct fail; simpl; [by eexists|].
    destruct eof; simpl.
    + apply IH. unfold stream_measure. simpl. lia.
    + destruct (read_until_newline s) as [[l rest] hit_eof] eqn:Hread.
      apply read_until_newline_lines in Hread as (_ & Hle & Hlt & _).
      apply IH. unfold stream_measure. simpl.
      case_bool_decide as Hs; [lia|].
      destruct s as [|c s]; [done|]. simpl in *.
      destruct hit_eof; [lia|]. specialize (Hlt eq_refl). lia.
Qed.

Lemma scan_line_unrecognized (line : string) (v : scan_vars) :
  recognized line = false → scan_line line v = v.
Proof.
  unfold recognized, scan_line.
  destruct (Str.find ":" line) as [colon|]; [|done]. simpl.
  intros Hkeys. apply orb_false_elim in Hkeys as [Hkeys Hmodel].
  apply orb_false_elim in Hkeys as [Hkeys Hproc].
  apply orb_false_elim in Hkeys as [Hflags Hmhz].
  by rewrite Hflags, Hmhz, Hproc, Hmodel.
Qed.

(** A table without recognized records leaves the scanned variables
    as they were. *)
Lemma scan_loop_unrecognized (fuel : nat) (f : ifstream) (line : string)
    (v v' : scan_vars) :
  recognized line = false →
  Forall (fun l => recognized l = false) (lines (unread f)) →
  scan_loop fuel f line v = Some v' → v' = v.
Proof.
  revert f line v. induction fuel as [|fuel IH]; intros f line v Hline Hall; [done|].
  simpl. destruct (stream_ok f); [|congruence].
  unfold getline. destruct (stream_good f).
  - destruct (read_until_newline (unread f)) as [[l rest] hit_eof] eqn:Hread.
    apply read_until_newline_lines in Hread as (Hlines & _ & _ & Hend).
    rewrite Hlines in Hall. apply Forall_cons in Hall as [Hl Hrest].
    rewrite (scan_line_unrecognized _ _ Hl). apply IH; [done|]. simpl.
    destruct hit_eof; [|done].
    (* at the end of the input nothing is left unread *)
    rewrite Hend by done. by repeat constructor.
  - rewrite (scan_line_unrecognized _ _ Hline). by apply IH.
Qed.

End Scan.

(** ** The derived maps invert the core-to-node array *)

Lemma filter_ext_in {A} (P Q : A → Prop) `{∀ x, Decision (P x)}
    `{∀ x, Decision (Q x)} (l : list A) :
  Forall (fun x => P x ↔ Q x) l → filter P l = filter Q l.
Proof.
  induction 1 as [|x l Hx _ IH]; [done|].
  rewrite !filter_cons, IH.
  destruct (decide (P x)), (decide (Q x)); tauto || done.
Qed.

Lemma cores_of_lookup (c2n : list Z) (node : Z) :
  cores_of c2n node (Z.of_nat (length c2n)) =
  filter (fun core => c2n !! Z.to_nat core = Some node) (seqZ 0 (Z.of_nat (length c2n))).
Proof.
  unfold cores_of. apply filter_ext_in, Forall_seqZ. intros core Hcore.
  destruct (lookup_lt_is_Some_2 c2n (Z.to_nat core)) as [x Hx]; [lia|].
  rewrite (node_of_lookup _ _ _ Hx), Hx. split; congruence.
Qed.

Lemma derived_maps_inverse (c2n : list Z) (max_nodes : Z) :
  0 ≤ max_nodes →
  nodes_in_range max_nodes c2n →
  inverse_maps c2n max_nodes
    (derived_nodes c2n max_nodes (Z.of_nat (length c2n)))
    (derived_idx c2n (Z.of_nat (length c2n))).
Proof.
  intros Hnodes Hrange. unfold inverse_maps. simpl.
  pose proof (concat_derived_nodes_all c2n max_nodes Hnodes Hrange) as Hperm.
  split; [rewrite length_derived_nodes; lia|].
  split; [rewrite length_derived_idx; lia|].
  split; [|split; [done|split]].
  - intros node Hnode. rewrite lookup_derived_nodes by done.
    by rewrite cores_of_lookup.
  - rewrite Hperm. apply NoDup_seqZ.
  - intros core node Hcore Hlook. apply lookup_lt_Some in Hlook as Hlt.
    pose proof (Forall_lookup_1 _ _ _ _ Hrange Hlook) as Hin. simpl in Hin.
    exists (local_rank c2n core), (cores_of c2n node (Z.of_nat (length c2n))).
    split; [|split; [unfold local_rank; lia|split]].
    + unfold derived_idx. rewrite list_lookup_fmap, lookup_seqZ_lt by lia.
      simpl. do 2 f_equal. lia.
    + by apply lookup_derived_nodes.
    + rewrite <- (node_of_lookup _ _ _ Hlook). apply cores_of_local_rank. lia.
Qed.

(** ** Bit masks *)

Lemma land_lor_same (a b : Z) : Z.land (Z.lor a b) b = b.
Proof.
  apply Z.bits_inj'. intros n _. rewrite Z.land_spec, Z.lor_spec.
  by destruct (Z.testbit a n), (Z.testbit b n).
Qed.

Lemma land_lor_keep (a b c : Z) : Z.land a c = c → Z.land (Z.lor a b) c = c.
Proof.
  intros Hac. apply Z.bits_inj'. intros n _.
  apply (f_equal (fun x => Z.testbit x n)) in Hac.
  rewrite Z.land_spec in *. rewrite Z.lor_spec.
  by destruct (Z.testbit a n), (Z.testbit b n), (Z.testbit c n).
Qed.

Lemma single_bit_nonzero (a : Z) : single_bit a → a ≠ 0.
Proof.
  intros (k & Hk & ->). rewrite Z.shiftl_1_l.
  apply Z.pow_nonzero; lia.
Qed.

Lemma single_bit_land (a b : Z) :
  single_bit a → single_bit b → a ≠ b → Z.land a b = 0.
Proof.
  intros (i & Hi & ->) (j & Hj & ->) Hne. rewrite !Z.shiftl_1_l in *.
  apply Z.bits_inj'. intros n Hn.
  rewrite Z.land_spec, !Z.pow2_bits_eqb, Z.bits_0 by lia.
  destruct (Z.eqb_spec i n), (Z.eqb_spec j n); try done. subst. congruence.
Qed.

(** ** What [Init] establishes *)

Section InitFacts.
Context `{CpuFlags} `{FloatModel}.

(** From the static initial state, on a machine that reports a
    non-negative number of configured processors, [Init] returns; the
    enabled mask equals the hardware-supported mask, there is at least
    one active core and one node, and the derived NUMA maps invert the
    discovered core-to-node array. *)
Lemma Init_returns (env : Env) :
  0 ≤ get_nprocs_conf env →
  ∃ st,
    Init env static_init = Ok st ∧
    initialized_ st = true ∧
    hardware_flags_ st = original_hardware_flags_ st ∧
    max_num_cores_ st = get_nprocs_conf env ∧
    1 ≤ num_cores_ st ∧
    1 ≤ max_num_numa_nodes_ st ∧
    Z.of_nat (length (core_to_numa_node_ st)) = max_num_cores_ st ∧
    nodes_in_range (max_num_numa_nodes_ st) (core_to_numa_node_ st) ∧
    inverse_maps (core_to_numa_node_ st) (max_num_numa_nodes_ st)
      (numa_node_to_cores_ st) (numa_node_core_idx_ st).
Proof.
  intros Hcores. unfold Init.
  set (cpuinfo := ifstream_open (proc_cpuinfo env)).
  set (start := mkScan _ _ _ _).
  destruct (scan_loop_terminates (scan_fuel cpuinfo) cpuinfo "" start
              (scan_fuel_enough cpuinfo)) as [v ->].
  rewrite InitNuma_ok by done. simpl. eexists. split; [done|]. simpl.
  pose proof (discovered_nodes_pos env) as Hpos.
  pose proof (discovered_map_in_range env (get_nprocs_conf env)) as Hrange.
  pose proof (length_discovered_map env (get_nprocs_conf env)) as Hlen.
  do 3 (split; [done|]). split; [repeat case_match; lia|].
  split; [done|]. split; [lia|]. split; [done|].
  pose proof (derived_maps_inverse _ (discovered_nodes env) ltac:(lia) Hrange)
    as Hinv.
  by replace (Z.of_nat (length (discovered_map env (get_nprocs_conf env))))
    with (get_nprocs_conf env) in Hinv by lia.
Qed.

End InitFacts.

(** ** The warning counter of [GetCurrentCore] *)

Lemma GetCurrentCore_step (b : Build) (env : Env) (st : CpuInfo) (occurrences : Z) :
  0 < max_num_cores_ st →
  ∃ q,
    GetCurrentCore b env st occurrences = Ok q ∧
    0 ≤ current_core q < max_num_cores_ st ∧
    occurrences ≤ log_occurrences q ∧
    (warning_logged q = true →
     occurrences < MAX_WARNINGS ∧ log_occurrences q = occurrences + 1).
Proof.
  intros Hmax. unfold GetCurrentCore, LOG_FIRST_N, MAX_WARNINGS.
  destruct (HAVE_SCHED_GETCPU b);
    [|eexists; split; [done|]; simpl; repeat split; (lia || done)].
  destruct (Z.ltb_spec (sched_getcpu env) 0);
    [eexists; split; [done|]; simpl; repeat split; (lia || done)|].
  destruct (Z.leb_spec (max_num_cores_ st) (sched_getcpu env));
    [|eexists; split; [done|]; simpl; repeat split; (lia || done)].
  destruct (Z.eqb_spec (max_num_cores_ st) 0); [lia|].
  eexists. split; [done|]. simpl. rewrite Z.rem_mod_nonneg by lia.
  pose proof (Z.mod_pos_bound (sched_getcpu env) (max_num_cores_ st) Hmax).
  split; [lia|].
  destruct (Z.leb_spec occurrences 20); (split; [lia|]); rewrite Z.leb_le; lia.
Qed.

(** Over any run of calls that starts with the counter at
    [occurrences], no more than [MAX_WARNINGS - occurrences] warnings
    are logged. *)
Lemma GetCurrentCore_calls_bound (b : Build) (envs : list Env) (st : CpuInfo)
    (occurrences : Z) :
  0 < max_num_cores_ st →
  ∃ qs,
    GetCurrentCore_calls b envs st occurrences = Ok qs ∧
    length qs = length envs ∧
    Forall (fun q => 0 ≤ current_core q < max_num_cores_ st) qs ∧
    Z.of_nat (length (List.filter warning_logged qs))
      ≤ Z.max 0 (MAX_WARNINGS - occurrences).
Proof.
  intros Hmax. revert occurrences.
  induction envs as [|env envs IH]; intros occurrences; simpl.
  - exists []. repeat split; [constructor | simpl; lia].
  - destruct (GetCurrentCore_step b env st occurrences Hmax)
      as (q & -> & Hin & Hmono & Hlogged). simpl.
    destruct (IH (log_occurrences q)) as (qs & -> & Hlen & Hall & Hcount). simpl.
    exists (q :: qs). split; [done|]. split; [simpl; lia|].
    split; [by constructor|]. simpl.
    destruct (warning_logged q) eqn:Hw; simpl.
    + destruct (Hlogged eq_refl) as [Hlt Hnext]. lia.
    + lia.
Qed.

Section Claims.
Context `{CpuFlags} `{FloatModel}.

(** C3.  After [InitNumaNodeToCores] has run over a total core-to-node
    array (one entry per possible core, each a node in
    [0, max_num_numa_nodes_)), the call has returned, the array is
    unchanged, and the two derived tables invert it: for every node
    [n], [numa_node_to_cores_[n]] is the ascending list of exactly the
    cores [c] with [core_to_numa_node_[c] = n]; the lists of all
    nodes together are a rearrangement of [0, max_num_cores_) without
    duplicates; and for every core [c],
    [numa_node_to_cores_[core_to_numa_node_[c]][numa_node_core_idx_[c]] = c]. *)
Theorem InitNumaNodeToCores_inverse_maps (st : CpuInfo) :
  numa_ready st →
  0 ≤ max_num_numa_nodes_ st →
  nodes_in_range (max_num_numa_nodes_ st) (core_to_numa_node_ st) →
  ∃ st',
    InitNumaNodeToCores st = Ok st' ∧
    core_to_numa_node_ st' = core_to_numa_node_ st ∧
    max_num_numa_nodes_ st' = max_num_numa_nodes_ st ∧
    max_num_cores_ st' = max_num_cores_ st ∧
    inverse_maps (core_to_numa_node_ st) (max_num_numa_nodes_ st)
      (numa_node_to_cores_ st') (numa_node_core_idx_ st').
Proof.
  intros Hready Hnodes Hrange. eexists. split.
  - by apply InitNumaNodeToCores_ok.
  - simpl. do 3 (split; [done|]).
    destruct Hready as [_ Hlen]. rewrite <- Hlen.
    by apply derived_maps_inverse.
Qed.

(** C7.  If [/sys/devices/system/node] is not a directory, [InitNuma]
    returns with [max_num_numa_nodes_ = 1] and every core in
    [0, max_num_cores_) on node 0, all cores in the list of node 0;
    and a machine whose directory lists the single node [node0] with
    every core linked to it gives the very same state. *)
Theorem InitNuma_no_numa_directory (env : Env) (st : CpuInfo) :
  sys_node_dir env = None →
  numa_node_to_cores_ st = [] →
  0 ≤ max_num_cores_ st →
  ∃ st',
    InitNuma env st = Ok st' ∧
    max_num_numa_nodes_ st' = 1 ∧
    Z.of_nat (length (core_to_numa_node_ st')) = max_num_cores_ st ∧
    (∀ core, 0 ≤ core < max_num_cores_ st →
       core_to_numa_node_ st' !! Z.to_nat core = Some 0) ∧
    numa_node_to_cores_ st' = [seqZ 0 (max_num_cores_ st)] ∧
    (∀ env', single_node_machine env' → InitNuma env' st = Ok st').
Proof.
  intros Hdir Hempty Hcores. eexists. split; [by apply InitNuma_ok|].
  assert (discovered_nodes env = 1) as Hone by (unfold discovered_nodes; by rewrite Hdir).
  assert (discovered_map env (max_num_cores_ st) =
          (fun _ => 0) <$> seqZ 0 (max_num_cores_ st)) as Hmap
    by (unfold discovered_map; by rewrite Hdir).
  simpl. rewrite Hone, Hmap. split; [done|].
  split; [rewrite length_fmap, length_seqZ; lia|]. split; [|split].
  - intros core Hcore. rewrite list_lookup_fmap, lookup_seqZ_lt by lia. done.
  - unfold derived_nodes. change (seqZ 0 1) with [0]. simpl.
    f_equal. unfold cores_of. apply filter_all, Forall_seqZ. intros core Hcore.
    unfold node_of. rewrite list_lookup_fmap, lookup_seqZ_lt by lia. done.
  - intros env' (entries & Hdir' & Hfilter & Hlinks).
    rewrite InitNuma_ok by done.
    assert (discovered_nodes env' = 1) as Hone'
      by (unfold discovered_nodes; by rewrite Hdir', Hfilter).
    assert (discovered_map env' (max_num_cores_ st) =
            (fun _ => 0) <$> seqZ 0 (max_num_cores_ st)) as Hmap'.
    { unfold discovered_map. rewrite Hdir', Hone'.
      apply list_fmap_ext. intros i core _. unfold discover_node, int_range.
      change (seqZ 0 1) with [0]. simpl. by rewrite Hlinks. }
    by rewrite Hone', Hmap'.
Qed.

(** C9.  [InitFakeNumaForTest] aborts on its [DCHECK_EQ] when the
    injected array does not have exactly [max_num_cores_] entries.
    With exactly that many entries, each a node in [0, max_nodes), it
    returns; [max_num_numa_nodes_] and [core_to_numa_node_] are the
    injected values; the state is the one [InitNumaNodeToCores]
    returns on the injected array with the node table cleared; and both
    derived tables are functions of the injected values alone (nothing
    of an earlier discovery is left) that invert the injected array. *)
Theorem InitFakeNumaForTest_rebuilds_maps (max_nodes : Z) (injected : list Z)
    (st : CpuInfo) :
  Z.of_nat (length (core_to_numa_node_ st)) = max_num_cores_ st →
  0 ≤ max_nodes →
  nodes_in_range max_nodes injected →
  (Z.of_nat (length injected) ≠ max_num_cores_ st →
     InitFakeNumaForTest max_nodes injected st = Crash DcheckFailed) ∧
  (Z.of_nat (length injected) = max_num_cores_ st →
     ∃ st',
       InitFakeNumaForTest max_nodes injected st = Ok st' ∧
       InitNumaNodeToCores
         (with_numa_node_to_cores_ []
            (with_core_to_numa_node_ injected
               (with_max_num_numa_nodes_ max_nodes st))) = Ok st' ∧
       max_num_numa_nodes_ st' = max_nodes ∧
       core_to_numa_node_ st' = injected ∧
       numa_node_to_cores_ st' =
         derived_nodes injected max_nodes (Z.of_nat (length injected)) ∧
       numa_node_core_idx_ st' = derived_idx injected (Z.of_nat (length injected)) ∧
       inverse_maps injected max_nodes
         (numa_node_to_cores_ st') (numa_node_core_idx_ st')).
Proof.
  intros Halloc Hnodes Hrange. split.
  - intros Hlen. unfold InitFakeNumaForTest.
    rewrite bool_decide_false by congruence. done.
  - intros Hlen. eexists. split; [by apply InitFakeNumaForTest_ok|].
    split.
    + rewrite InitNumaNodeToCores_ok; [reflexivity| |done|done].
      split; [done|]. simpl. lia.
    + simpl. rewrite <- Hlen. do 4 (split; [done|]).
      by apply derived_maps_inverse.
Qed.


(** C8.  With the [num_cores] flag at 0, a descriptor table that
    cannot be opened, is empty, or has no recognized record makes
    [Init] return (the process starts) with [num_cores_ = 1],
    [model_name_ = "unknown"], [cycles_per_ms_ = 1000000] and both
    capability masks empty. *)
Theorem Init_unrecognized_table_defaults (env : Env) :
  FLAGS_num_cores env = 0 →
  0 ≤ get_nprocs_conf env →
  no_recognized_record (proc_cpuinfo env) →
  ∃ st,
    Init env static_init = Ok st ∧
    initialized_ st = true ∧
    num_cores_ st = 1 ∧
    model_name_ st = "unknown" ∧
    cycles_per_ms_ st = 1000000 ∧
    hardware_flags_ st = 0 ∧
    original_hardware_flags_ st = 0.
Proof.
  intros Hflag Hcores Htable. unfold Init.
  set (cpuinfo := ifstream_open (proc_cpuinfo env)).
  set (start := mkScan _ _ _ _).
  destruct (scan_loop_terminates (scan_fuel cpuinfo) cpuinfo "" start
              (scan_fuel_enough cpuinfo)) as [v Hscan].
  rewrite Hscan.
  assert (v = start) as ->.
  { eapply scan_loop_unrecognized; [| |exact Hscan]; [done|].
    unfold cpuinfo, no_recognized_record in *.
    destruct (proc_cpuinfo env) as [contents|]; simpl; [done|].
    by repeat constructor. }
  simpl. rewrite float_zero_is_zero, Hflag. simpl.
  rewrite InitNuma_ok by done. simpl. eexists. by repeat split.
Qed.

(** C4.  Once [Init] has run, [EnableFeature(flag, false)] returns and
    [IsSupported(flag)] is false afterwards, for every flag; and if the
    flag is contained in [original_hardware_flags_], a following
    [EnableFeature(flag, true)] returns and [IsSupported(flag)] is true
    again. *)
Theorem EnableFeature_disable_then_enable (flag : Z) (st : CpuInfo) :
  initialized_ st = true →
  ∃ st1,
    EnableFeature flag false st = Ok st1 ∧
    IsSupported flag st1 = Ok false ∧
    original_hardware_flags_ st1 = original_hardware_flags_ st ∧
    (flag ≠ 0 →
     Z.land (original_hardware_flags_ st) flag = flag →
     ∃ st2,
       EnableFeature flag true st1 = Ok st2 ∧
       IsSupported flag st2 = Ok true).
Proof.
  intros Hinit. unfold EnableFeature, IsSupported. rewrite Hinit. simpl.
  eexists. split; [done|]. simpl. rewrite Hinit. simpl.
  assert (Z.land (Z.land (hardware_flags_ st) (Z.lnot flag)) flag = 0) as ->.
  { rewrite <- Z.land_assoc, (Z.land_comm (Z.lnot flag)), Z.land_lnot_diag.
    apply Z.land_0_r. }
  split; [done|]. split; [done|]. intros Hflag Horig.
  rewrite Horig. apply Z.eqb_neq in Hflag as Hneq. rewrite Hneq. simpl.
  eexists. split; [done|]. simpl. rewrite Hinit. simpl.
  rewrite land_lor_same. by rewrite Hneq.
Qed.

(** C5.  [EnableFeature(flag, true)] for a flag none of whose bits is
    in [original_hardware_flags_] ends in a failed DCHECK, which
    aborts the process; the call does not return a state, so the
    enabled mask is never changed by it. *)
Theorem EnableFeature_unsupported_aborts (flag : Z) (st : CpuInfo) :
  Z.land (original_hardware_flags_ st) flag = 0 →
  EnableFeature flag true st = Crash DcheckFailed ∧
  ∀ st', EnableFeature flag true st ≠ Ok st'.
Proof.
  intros Horig.
  assert (EnableFeature flag true st = Crash DcheckFailed) as Hrun.
  { unfold EnableFeature. destruct (initialized_ st); simpl; [|done].
    by rewrite Horig. }
  split; [done|]. intros st'. by rewrite Hrun.
Qed.

(** C6.  With at least one possible core, [GetCurrentCore] returns a
    core in [0, max_num_cores_): 0 when [sched_getcpu] is not available
    or reports a negative value, the reported core when that is in
    range, and the reported core modulo [max_num_cores_] when it is
    [max_num_cores_] or more.  The occurrence counter of the warning is
    advanced on this last path only, by one while it is no more than
    [MAX_WARNINGS], and the warning is logged exactly while fewer than
    [MAX_WARNINGS] calls have taken that path; so over any run of calls
    that starts with the counter at 0, every returned core is in range
    and at most [MAX_WARNINGS] warnings are logged. *)
Theorem GetCurrentCore_in_range (b : Build) (env : Env) (st : CpuInfo)
    (occurrences : Z) :
  0 < max_num_cores_ st →
  ∃ q,
    GetCurrentCore b env st occurrences = Ok q ∧
    0 ≤ current_core q < max_num_cores_ st ∧
    (HAVE_SCHED_GETCPU b = false ∨ sched_getcpu env < 0 →
       current_core q = 0 ∧ warning_logged q = false ∧
       log_occurrences q = occurrences) ∧
    (HAVE_SCHED_GETCPU b = true → 0 ≤ sched_getcpu env < max_num_cores_ st →
       current_core q = sched_getcpu env ∧ warning_logged q = false ∧
       log_occurrences q = occurrences) ∧
    (HAVE_SCHED_GETCPU b = true → max_num_cores_ st ≤ sched_getcpu env →
       current_core q = sched_getcpu env mod max_num_cores_ st ∧
       (warning_logged q = true ↔ occurrences < MAX_WARNINGS) ∧
       log_occurrences q =
         (if occurrences <=? MAX_WARNINGS then occurrences + 1 else occurrences)) ∧
    (∀ envs : list Env,
       ∃ qs,
         GetCurrentCore_calls b envs st 0 = Ok qs ∧
         length qs = length envs ∧
         Forall (fun q => 0 ≤ current_core q < max_num_cores_ st) qs ∧
         Z.of_nat (length (List.filter warning_logged qs)) ≤ MAX_WARNINGS).
Proof.
  intros Hmax.
  assert (∀ envs : list Env,
            ∃ qs,
              GetCurrentCore_calls b envs st 0 = Ok qs ∧
              length qs = length envs ∧
              Forall (fun q => 0 ≤ current_core q < max_num_cores_ st) qs ∧
              Z.of_nat (length (List.filter warning_logged qs)) ≤ MAX_WARNINGS)
    as Hruns.
  { intros envs.
    destruct (GetCurrentCore_calls_bound b envs st 0 Hmax)
      as (qs & Hrun & Hlen & Hall & Hcount).
    exists qs. repeat split; done. }
  unfold GetCurrentCore, LOG_FIRST_N, MAX_WARNINGS in *.
  destruct (HAVE_SCHED_GETCPU b).
  - destruct (Z.ltb_spec (sched_getcpu env) 0) as [Hneg|Hpos].
    + eexists. split; [done|]. simpl.
      split; [lia|]. split; [done|]. split; [intros; lia|].
      split; [intros; lia | done].
    + destruct (Z.leb_spec (max_num_cores_ st) (sched_getcpu env)) as [Hbig|Hin].
      * destruct (Z.eqb_spec (max_num_cores_ st) 0) as [?|_]; [lia|].
        eexists. split; [done|]. simpl.
        rewrite Z.rem_mod_nonneg by lia.
        pose proof (Z.mod_pos_bound (sched_getcpu env) (max_num_cores_ st) Hmax).
        split; [lia|]. split; [intros [?|?]; (done || lia)|].
        split; [intros; lia|]. split; [|done]. intros _ _. split; [done|].
        split; [|done].
        destruct (Z.leb_spec occurrences 20); simpl; rewrite Z.leb_le; lia.
      * eexists. split; [done|]. simpl.
        split; [lia|]. split; [intros [?|?]; (done || lia)|].
        split; [done|]. split; [intros; lia | done].
  - eexists. split; [done|]. simpl.
    split; [lia|]. split; [done|]. split; [done|]. split; [done | done].
Qed.

(** C1, as the code has it.  On x86_64 and after [Init],
    [EnforceCpuRequirements] returns a status (it does not abort); the
    status is the AVX2 error exactly when the AVX2 bit is absent from
    the currently enabled mask [hardware_flags_], the one
    [IsSupported] reads and [EnableFeature] changes, and is [OK]
    exactly when the bit is present. *)
Theorem EnforceCpuRequirements_enabled_mask (b : Build) (st : CpuInfo) :
  x86_64 b = true →
  initialized_ st = true →
  (∃ status, EnforceCpuRequirements b st = Ok status) ∧
  (EnforceCpuRequirements b st = Ok (Status_Error avx2_error) ↔
   Z.land (hardware_flags_ st) AVX2 = 0) ∧
  (EnforceCpuRequirements b st = Ok Status_OK ↔
   Z.land (hardware_flags_ st) AVX2 ≠ 0).
Proof.
  intros Harch Hinit. unfold EnforceCpuRequirements, IsSupported.
  rewrite Harch, Hinit. simpl.
  destruct (Z.eqb_spec (Z.land (hardware_flags_ st) AVX2) 0) as [Hz|Hnz]; simpl.
  - split; [by eexists|]. split; split; (done || congruence).
  - split; [by eexists|]. split; split; (done || congruence).
Qed.

End Claims.

(** ** Capability names are matched as substrings *)

Lemma prefix_avx2_avx (v : string) :
  String.prefix "avx2" v = true → String.prefix "avx" v = true.
Proof.
  destruct v as [|c1 [|c2 [|c3 [|c4 v]]]]; simpl; try done;
    repeat (case_match; try done).
Qed.

Lemma contains_avx2_avx (v : string) :
  Str.contains v "avx2" = true → Str.contains v "avx" = true.
Proof.
  induction v as [|c v IH].
  - done.
  - change (Str.contains (String c v) ?t)
      with (String.prefix t (String c v) || Str.contains v t).
    intros [Hpre|Hrest]%orb_true_iff; apply orb_true_iff.
    + left. by apply prefix_avx2_avx.
    + right. by apply IH.
Qed.

Section Parsing.
Context `{CpuFlags} `{FloatModel}.

(** X22.  Whatever else a [flags] value lists, if it names [avx2] then
    [ParseCPUFlags] also sets the AVX bit: the name [avx] is found
    inside [avx2]. *)
Lemma ParseCPUFlags_avx2_sets_avx (values : string) :
  Str.contains values "avx2" = true →
  Z.land (ParseCPUFlags values) AVX = AVX.
Proof.
  intros Havx2. apply contains_avx2_avx in Havx2 as Havx.
  unfold ParseCPUFlags, flag_mappings. simpl. rewrite Havx, Havx2.
  destruct (Str.contains values "pclmulqdq");
    [apply land_lor_keep|]; apply land_lor_keep, land_lor_same.
Qed.

Lemma flags_wf_facts :
  flags_wf →
  Forall single_bit all_flags ∧
  SSSE3 ≠ SSE4_2 ∧ SSSE3 ≠ POPCNT ∧ SSSE3 ≠ PCLMULQDQ ∧
  SSE4_1 ≠ SSE4_2 ∧ SSE4_1 ≠ POPCNT ∧ SSE4_1 ≠ PCLMULQDQ ∧
  AVX ≠ SSE4_2 ∧ AVX ≠ POPCNT ∧ AVX ≠ PCLMULQDQ ∧
  AVX2 ≠ SSE4_2 ∧ AVX2 ≠ POPCNT ∧ AVX2 ≠ PCLMULQDQ.
Proof.
  intros [Hbits Hnd]. split; [done|]. unfold all_flags in Hnd.
  rewrite !NoDup_cons, !not_elem_of_cons in Hnd.
  repeat split; intros Heq; rewrite Heq in Hnd; tauto.
Qed.

(** C2, as the code has it.  On the synthetic table
    [flags : ssse3 sse4_1 avx2], [processor : 0], [processor : 1],
    [Init] returns with [num_cores_ = 2]; [IsSupported] is true for
    ssse3, sse4_1 and avx2, false for sse4_2, popcnt and pclmulqdq, but
    true for avx as well. *)
Theorem Init_synthetic_table_reports_avx :
  flags_wf →
  ∃ st,
    Init (env_of_table (Some synthetic_cpuinfo)) static_init = Ok st ∧
    num_cores_ st = 2 ∧
    hardware_flags_ st = Z.lor (Z.lor (Z.lor SSSE3 SSE4_1) AVX) AVX2 ∧
    IsSupported SSSE3 st = Ok true ∧
    IsSupported SSE4_1 st = Ok true ∧
    IsSupported AVX2 st = Ok true ∧
    IsSupported AVX st = Ok true ∧
    IsSupported SSE4_2 st = Ok false ∧
    IsSupported POPCNT st = Ok false ∧
    IsSupported PCLMULQDQ st = Ok false.
Proof.
  intros Hwf. apply flags_wf_facts in Hwf as (Hbits & Hne).
  unfold all_flags in Hbits. rewrite !Forall_cons in Hbits.
  destruct Hbits as (B1 & B2 & B3 & B4 & B5 & B6 & B7 & _).
  unfold Init.
  match goal with
  | |- context [scan_loop ?fuel ?f ?line ?v] =>
      assert (scan_loop fuel f line v =
              Some (mkScan (Z.lor (Z.lor (Z.lor SSSE3 SSE4_1) AVX) AVX2)
                      "unknown" float_zero 2)) as -> by (by vm_compute)
  end.
  simpl. rewrite float_zero_is_zero. simpl.
  eexists. split; [reflexivity|].
  unfold IsSupported. simpl.
  assert (∀ f, single_bit f → negb (f =? 0) = true) as Hnz.
  { intros f Hf%single_bit_nonzero. by apply negb_true_iff, Z.eqb_neq. }
  split; [done|]. split; [done|].
  set (mask := Z.lor (Z.lor (Z.lor SSSE3 SSE4_1) AVX) AVX2).
  assert (Z.land mask SSSE3 = SSSE3) as ->
    by (do 3 apply land_lor_keep; apply Z.land_diag).
  assert (Z.land mask SSE4_1 = SSE4_1) as ->
    by (do 2 apply land_lor_keep; apply land_lor_same).
  assert (Z.land mask AVX = AVX) as -> by (apply land_lor_keep, land_lor_same).
  assert (Z.land mask AVX2 = AVX2) as -> by apply land_lor_same.
  assert (∀ f, single_bit f → SSSE3 ≠ f → SSE4_1 ≠ f → AVX ≠ f → AVX2 ≠ f →
            Z.land mask f = 0) as Hoff.
  { intros f Hf N1 N2 N3 N4. unfold mask.
    rewrite !Z.land_lor_distr_l, !single_bit_land by done. done. }
  rewrite !Hnz by done. rewrite !Hoff by tauto. done.
Qed.

End Parsing.

(** ** The theorems at concrete machines *)

(** The bit assignment of the header is well formed. *)
Lemma impala_flags_wf : flags_wf.
Proof.
  split.
  - unfold all_flags. simpl.
    repeat (constructor; [eexists; split; [|reflexivity]; lia|]). constructor.
  - unfold all_flags. simpl. rewrite !NoDup_cons, !not_elem_of_cons.
    repeat split; try done; try apply not_elem_of_nil; apply NoDup_nil_2.
Qed.

(** The example state is the one [Init] leaves on the two-node machine. *)
Lemma two_node_state_reachable : Init env_two_nodes static_init = Ok two_node_state.
Proof. vm_compute. reflexivity. Qed.

(** C1, the claim as stated fails: after [Init] on a table that lists
    avx2, followed by [EnableFeature(AVX2, false)], the AVX2 bit is
    still in the hardware-supported mask [original_hardware_flags_],
    yet [EnforceCpuRequirements] returns the error. *)
Lemma EnforceCpuRequirements_ignores_original_mask :
  ∃ st0 st,
    Init (env_of_table (Some synthetic_cpuinfo)) static_init = Ok st0 ∧
    EnableFeature AVX2 false st0 = Ok st ∧
    Z.land (original_hardware_flags_ st) AVX2 ≠ 0 ∧
    EnforceCpuRequirements build_x86_64 st = Ok (Status_Error avx2_error).
Proof.
  eexists _, _. split; [vm_compute; reflexivity|].
  split; [vm_compute; reflexivity|]. split; [|vm_compute; reflexivity].
  vm_compute. discriminate.
Qed.

Lemma EnforceCpuRequirements_enabled_mask_witness :
  x86_64 build_x86_64 = true ∧
  initialized_ two_node_state = true ∧
  EnforceCpuRequirements build_x86_64 two_node_state = Ok Status_OK.
Proof.
  split; [reflexivity|]. split; [reflexivity|].
  apply (EnforceCpuRequirements_enabled_mask build_x86_64 two_node_state);
    [reflexivity | reflexivity | vm_compute; discriminate].
Defined.

Lemma Init_synthetic_table_reports_avx_witness :
  flags_wf ∧
  ∃ st,
    Init (env_of_table (Some synthetic_cpuinfo)) static_init = Ok st ∧
    num_cores_ st = 2 ∧
    IsSupported AVX st = Ok true.
Proof.
  split; [exact impala_flags_wf|].
  destruct (Init_synthetic_table_reports_avx impala_flags_wf)
    as (st & Hinit & Hcores & _ & _ & _ & _ & Havx & _).
  exists st. split; [exact Hinit|]. split; [exact Hcores | exact Havx].
Defined.

Lemma InitNumaNodeToCores_inverse_maps_witness :
  let st := with_numa_node_to_cores_ [] two_node_state in
  numa_ready st ∧
  0 ≤ max_num_numa_nodes_ st ∧
  nodes_in_range (max_num_numa_nodes_ st) (core_to_numa_node_ st) ∧
  ∃ st',
    InitNumaNodeToCores st = Ok st' ∧
    inverse_maps (core_to_numa_node_ st) (max_num_numa_nodes_ st)
      (numa_node_to_cores_ st') (numa_node_core_idx_ st').
Proof.
  assert (numa_ready (with_numa_node_to_cores_ [] two_node_state)) as Hready
    by (split; reflexivity).
  assert (nodes_in_range 2 [0; 1; 0; 1]) as Hrange
    by (repeat constructor; lia).
  split; [exact Hready|]. split; [simpl; lia|]. split; [exact Hrange|].
  destruct (InitNumaNodeToCores_inverse_maps
              (with_numa_node_to_cores_ [] two_node_state) Hready
              ltac:(simpl; lia) Hrange) as (st' & Hrun & _ & _ & _ & Hinv).
  exists st'. split; [exact Hrun | exact Hinv].
Defined.

Lemma EnableFeature_disable_then_enable_witness :
  initialized_ two_node_state = true ∧
  ∃ st1,
    EnableFeature AVX2 false two_node_state = Ok st1 ∧
    IsSupported AVX2 st1 = Ok false ∧
    ∃ st2, EnableFeature AVX2 true st1 = Ok st2 ∧ IsSupported AVX2 st2 = Ok true.
Proof.
  split; [reflexivity|].
  destruct (EnableFeature_disable_then_enable AVX2 two_node_state eq_refl)
    as (st1 & Hoff & Hfalse & _ & Hon).
  exists st1. split; [exact Hoff|]. split; [exact Hfalse|].
  apply Hon; [vm_compute; discriminate | vm_compute; reflexivity].
Defined.

Lemma EnableFeature_unsupported_aborts_witness :
  Z.land (original_hardware_flags_ two_node_state) PCLMULQDQ = 0 ∧
  EnableFeature PCLMULQDQ true two_node_state = Crash DcheckFailed.
Proof.
  split; [reflexivity|].
  apply (EnableFeature_unsupported_aborts PCLMULQDQ two_node_state). reflexivity.
Defined.

Lemma GetCurrentCore_in_range_witness :
  0 < max_num_cores_ two_node_state ∧
  ∃ q,
    GetCurrentCore build_x86_64 env_two_nodes two_node_state 0 = Ok q ∧
    0 ≤ current_core q < max_num_cores_ two_node_state.
Proof.
  split; [reflexivity|].
  destruct (GetCurrentCore_in_range build_x86_64 env_two_nodes two_node_state 0
              eq_refl) as (q & Hrun & Hin & _).
  exists q. split; [exact Hrun | exact Hin].
Defined.

Lemma InitNuma_no_numa_directory_witness :
  let env := env_of_table None in
  let st := with_numa_node_to_cores_ [] two_node_state in
  sys_node_dir env = None ∧
  numa_node_to_cores_ st = [] ∧
  0 ≤ max_num_cores_ st ∧
  ∃ st',
    InitNuma env st = Ok st' ∧
    max_num_numa_nodes_ st' = 1 ∧
    core_to_numa_node_ st' = [0; 0; 0; 0] ∧
    InitNuma env_one_node st = Ok st'.
Proof.
  split; [reflexivity|]. split; [reflexivity|]. split; [simpl; lia|].
  destruct (InitNuma_no_numa_directory (env_of_table None)
              (with_numa_node_to_cores_ [] two_node_state) eq_refl eq_refl
              ltac:(simpl; lia)) as (st' & Hrun & Hone & _ & _ & _ & Hsame).
  exists st'. split; [exact Hrun|]. split; [exact Hone|]. split.
  - vm_compute in Hrun. injection Hrun as <-. reflexivity.
  - apply Hsame. exists ["has_memory"; "node0"; "possible"].
    split; [reflexivity|]. split; [reflexivity|]. intros core. reflexivity.
Defined.

Lemma Init_unrecognized_table_defaults_witness :
  let env := env_of_table (Some garbage_cpuinfo) in
  FLAGS_num_cores env = 0 ∧
  0 ≤ get_nprocs_conf env ∧
  no_recognized_record (proc_cpuinfo env) ∧
  ∃ st,
    Init env static_init = Ok st ∧
    num_cores_ st = 1 ∧
    model_name_ st = "unknown" ∧
    cycles_per_ms_ st = 1000000 ∧
    hardware_flags_ st = 0.
Proof.
  assert (no_recognized_record (Some garbage_cpuinfo)) as Hgarbage.
  { unfold no_recognized_record.
    change (lines garbage_cpuinfo) with
      ["vendor_id : GenuineIntel"; "flags: avx2 ssse3"; "no colon on this line";
       ": processor"; ""].
    repeat (constructor; [vm_compute; reflexivity|]). constructor. }
  split; [reflexivity|]. split; [simpl; lia|]. split; [exact Hgarbage|].
  destruct (Init_unrecognized_table_defaults
              (env_of_table (Some garbage_cpuinfo)) eq_refl ltac:(simpl; lia)
              Hgarbage)
    as (st & Hrun & _ & Hcores & Hmodel & Hcycles & Hflags & _).
  exists st. repeat split; assumption.
Defined.

Lemma InitFakeNumaForTest_rebuilds_maps_witness :
  Z.of_nat (length (core_to_numa_node_ two_node_state)) =
    max_num_cores_ two_node_state ∧
  0 ≤ 2 ∧
  nodes_in_range 2 [1; 1; 0; 0] ∧
  InitFakeNumaForTest 2 [1; 1; 0] two_node_state = Crash DcheckFailed ∧
  ∃ st',
    InitFakeNumaForTest 2 [1; 1; 0; 0] two_node_state = Ok st' ∧
    core_to_numa_node_ st' = [1; 1; 0; 0] ∧
    numa_node_to_cores_ st' = [[2; 3]; [0; 1]] ∧
    numa_node_core_idx_ st' = [0; 1; 0; 1].
Proof.
  assert (nodes_in_range 2 [1; 1; 0; 0]) as Hrange by (repeat constructor; lia).
  assert (nodes_in_range 2 [1; 1; 0]) as Hshort by (repeat constructor; lia).
  split; [reflexivity|]. split; [lia|]. split; [exact Hrange|]. split.
  - apply (InitFakeNumaForTest_rebuilds_maps 2 [1; 1; 0] two_node_state
             eq_refl ltac:(lia) Hshort). simpl. lia.
  - destruct (InitFakeNumaForTest_rebuilds_maps 2 [1; 1; 0; 0] two_node_state
                eq_refl ltac:(lia) Hrange) as [_ Hok].
    destruct (Hok eq_refl) as (st' & Hrun & _ & _ & Hmap & Hnodes & Hidx & _).
    exists st'. split; [exact Hrun|]. split; [exact Hmap|].
    split; [rewrite Hnodes | rewrite Hidx]; reflexivity.
Defined.


(** A table whose last line has no newline: the stale line is scanned
    a second time after [getline] fails, so one [processor] record
    counts as two cores. *)
Lemma Init_unterminated_last_line :
  ∃ st, Init (env_of_table (Some "processor : 0")) static_init = Ok st ∧
        num_cores_ st = 2.
Proof. eexists. split; vm_compute; reflexivity. Qed.

(** ** The scanning loop as a fold over the lines it sees *)

Lemma lines_nonempty (s : string) : lines s ≠ [].
Proof.
  destruct s as [|c s]; simpl; [done|].
  destruct (Ascii.eqb c "010"); [done|]. by destruct (lines s).
Qed.

Lemma read_until_newline_eof (s l rest : string) :
  read_until_newline s = (l, rest, true) → l = s.
Proof.
  revert l rest. induction s as [|c s IH]; intros l rest; simpl.
  - by intros [= <- _].
  - destruct (Ascii.eqb c "010"); [done|].
    destruct (read_until_newline s) as [[l0 rest0] eof0] eqn:Hs.
    intros [= <- <- ->]. f_equal. by eapply IH.
Qed.

Lemma seen_of_string_read (s l rest : string) (hit_eof : bool) :
  read_until_newline s = (l, rest, hit_eof) →
  seen_of_string s =
  if hit_eof then (if String.eqb l "" then [l] else [l; l])
  else l :: seen_of_string rest.
Proof.
  intros Hread.
  destruct (read_until_newline_lines _ _ _ _ Hread) as (Hlines & _).
  unfold seen_of_string. rewrite Hlines. destruct hit_eof.
  - simpl. by destruct (String.eqb l "").
  - pose proof (lines_nonempty rest) as Hne.
    destruct (lines rest) as [|l1 ls] eqn:Hrest; [done|].
    rewrite last_cons_cons. destruct (last (l1 :: ls)) as [l'|]; [|done].
    by destruct (String.eqb l' "").
Qed.

Section ScanFold.
Context `{CpuFlags} `{FloatModel}.

(** The loop scans the pending lines, one after the other. *)
Lemma scan_loop_pending (fuel : nat) (f : ifstream) (line : string) (v : scan_vars) :
  (stream_measure f ≤ fuel)%nat →
  scan_loop fuel f line v = Some (scan_lines (pending_lines f line) v).
Proof.
  revert f line v. induction fuel as [|fuel IH]; intros f line v Hfuel.
  - unfold stream_measure in Hfuel. repeat case_match; lia.
  - simpl. unfold stream_ok, getline, stream_good, pending_lines.
    destruct f as [s eof fail]. unfold stream_measure in Hfuel. simpl in *.
    destruct fail; simpl; [done|].
    destruct eof; simpl.
    + rewrite IH by (unfold stream_measure; simpl; lia). done.
    + destruct (read_until_newline s) as [[l rest] hit_eof] eqn:Hread.
      pose proof (seen_of_string_read _ _ _ _ Hread) as Hseen.
      pose proof (read_until_newline_lines _ _ _ _ Hread) as (_ & Hle & Hlt & Hend).
      rewrite Hseen. rewrite IH; last first.
      { unfold stream_measure. simpl. case_bool_decide as Hs; [lia|].
        destruct s as [|c s]; [done|]. simpl in *.
        destruct hit_eof; [lia|]. specialize (Hlt eq_refl). lia. }
      unfold pending_lines. simpl. destruct hit_eof.
      * apply read_until_newline_eof in Hread as ->.
        case_bool_decide as Hs.
        -- subst. done.
        -- destruct (String.eqb_spec s ""); [done|]. done.
      * case_bool_decide as Hs; [|done].
        subst. simpl in Hread. by injection Hread.
Qed.

Lemma scan_loop_seen (table : option string) (v : scan_vars) :
  scan_loop (scan_fuel (ifstream_open table)) (ifstream_open table) "" v
  = Some (scan_lines (seen_lines table) v).
Proof.
  rewrite scan_loop_pending by apply scan_fuel_enough.
  by destruct table.
Qed.

End ScanFold.

(** ** What the scanned lines contribute to each variable *)

Section ScanFields.
Context `{CpuFlags} `{FloatModel}.

Ltac split_keys name :=
  destruct (String.eqb_spec name "flags") as [->|?]; simpl;
  [|destruct (String.eqb_spec name "cpu MHz") as [->|?]; simpl;
    [|destruct (String.eqb_spec name "processor") as [->|?]; simpl;
      [|destruct (String.eqb_spec name "model name") as [->|?]; simpl]]].

(** The body of the loop in terms of the record of the line. *)
Lemma scan_line_record (l : string) (v : scan_vars) :
  scan_line l v =
  match record_of l with
  | None => v
  | Some (name, value) =>
      if String.eqb name "flags" then
        mkScan (Z.lor (sv_hardware_flags v) (ParseCPUFlags value))
               (sv_model_name v) (sv_max_mhz v) (sv_num_cores v)
      else if String.eqb name "cpu MHz" then
        mkScan (sv_hardware_flags v) (sv_model_name v)
               (float_max (atof value) (sv_max_mhz v)) (sv_num_cores v)
      else if String.eqb name "processor" then
        mkScan (sv_hardware_flags v) (sv_model_name v) (sv_max_mhz v)
               (sv_num_cores v + 1)
      else if String.eqb name "model name" then
        mkScan (sv_hardware_flags v) value (sv_max_mhz v) (sv_num_cores v)
      else v
  end.
Proof. unfold scan_line, record_of. by destruct (Str.find ":" l). Qed.

Lemma scan_line_num_cores (l : string) (v : scan_vars) :
  sv_num_cores (scan_line l v) =
  sv_num_cores v + if has_key "processor" l then 1 else 0.
Proof.
  unfold scan_line, has_key, value_of, record_of.
  destruct (Str.find ":" l) as [colon|]; simpl; [|lia].
  generalize (line_name l colon) (line_value l colon). intros name value.
  split_keys name; lia.
Qed.

Lemma scan_line_model_name (l : string) (v : scan_vars) :
  sv_model_name (scan_line l v) =
  default (sv_model_name v) (value_of "model name" l).
Proof.
  unfold scan_line, value_of, record_of.
  destruct (Str.find ":" l) as [colon|]; simpl; [|done].
  generalize (line_name l colon) (line_value l colon). intros name value.
  split_keys name; done.
Qed.

Lemma scan_line_max_mhz (l : string) (v : scan_vars) :
  has_key "cpu MHz" l = false → sv_max_mhz (scan_line l v) = sv_max_mhz v.
Proof.
  unfold scan_line, has_key, value_of, record_of.
  destruct (Str.find ":" l) as [colon|]; simpl; [|done].
  generalize (line_name l colon) (line_value l colon). intros name value.
  split_keys name; done.
Qed.

Lemma scan_line_hardware_flags (l : string) (v : scan_vars) :
  sv_hardware_flags (scan_line l v) =
  match value_of "flags" l with
  | Some value => Z.lor (sv_hardware_flags v) (ParseCPUFlags value)
  | None => sv_hardware_flags v
  end.
Proof.
  unfold scan_line, value_of, record_of.
  destruct (Str.find ":" l) as [colon|]; simpl; [|done].
  generalize (line_name l colon) (line_value l colon). intros name value.
  split_keys name; done.
Qed.

Lemma scan_lines_num_cores (ls : list string) (v : scan_vars) :
  sv_num_cores (scan_lines ls v) =
  sv_num_cores v + Z.of_nat (length (List.filter (has_key "processor") ls)).
Proof.
  unfold scan_lines. revert v. induction ls as [|l ls IH]; intros v; simpl; [lia|].
  rewrite IH, scan_line_num_cores. destruct (has_key "processor" l); simpl; lia.
Qed.

Lemma scan_lines_model_name (ls : list string) (v : scan_vars) :
  sv_model_name (scan_lines ls v) =
  default (sv_model_name v) (last (omap (value_of "model name") ls)).
Proof.
  unfold scan_lines. revert v. induction ls as [|l ls IH]; intros v; simpl; [done|].
  rewrite IH, scan_line_model_name.
  destruct (value_of "model name" l) as [value|]; simpl; [|done].
  rewrite last_cons. by destruct (last _).
Qed.

Lemma scan_lines_max_mhz (ls : list string) (v : scan_vars) :
  Forall (fun l => has_key "cpu MHz" l = false) ls →
  sv_max_mhz (scan_lines ls v) = sv_max_mhz v.
Proof.
  unfold scan_lines. intros Hall. revert v.
  induction Hall as [|l ls Hl _ IH]; intros v; simpl; [done|].
  by rewrite IH, scan_line_max_mhz.
Qed.

Lemma scan_lines_hardware_flags (ls : list string) (v : scan_vars) :
  sv_hardware_flags (scan_lines ls v) =
  fold_left Z.lor (ParseCPUFlags <$> omap (value_of "flags") ls) (sv_hardware_flags v).
Proof.
  unfold scan_lines. revert v. induction ls as [|l ls IH]; intros v; simpl; [done|].
  rewrite IH, scan_line_hardware_flags.
  by destruct (value_of "flags" l).
Qed.

End ScanFields.

(** ** The bitmap [ParseCPUFlags] returns *)

Lemma land_if_lor (c : bool) (x g f : Z) :
  Z.land (if c then Z.lor x g else x) f =
  Z.lor (Z.land x f) (if c then Z.land g f else 0).
Proof. destruct c; [apply Z.land_lor_distr_l | by rewrite Z.lor_0_r]. Qed.

Lemma if_same {A} (c : bool) (x : A) : (if c then x else x) = x.
Proof. by destruct c. Qed.

Section FlagBits.
Context `{CpuFlags} `{FloatModel}.

(** Two flags of a well-formed assignment share a bit only if they are
    the same entry of the table. *)
Lemma flags_wf_land (i j : nat) (a b : Z) :
  flags_wf →
  all_flags !! i = Some a → all_flags !! j = Some b →
  Z.land a b = if decide (i = j) then a else 0.
Proof.
  intros [Hbits Hnd] Ha Hb. case_decide as Hij.
  - subst. rewrite Ha in Hb. injection Hb as <-. apply Z.land_diag.
  - apply single_bit_land.
    + by eapply Forall_lookup_1.
    + by eapply Forall_lookup_1.
    + intros ->. apply Hij. by eapply NoDup_lookup.
Qed.

Ltac any_index k :=
  first [k 0%nat | k 1%nat | k 2%nat | k 3%nat | k 4%nat | k 5%nat | k 6%nat].

Ltac flag_lands Hwf :=
  repeat match goal with
  | |- context [Z.land ?a ?b] =>
      any_index ltac:(fun i => any_index ltac:(fun j =>
        rewrite (flags_wf_land i j a b Hwf eq_refl eq_refl)))
  end.

Lemma ParseCPUFlags_bit (values name : string) (flag : Z) :
  flags_wf →
  (name, flag) ∈ flag_mappings →
  Z.land (ParseCPUFlags values) flag = if Str.contains values name then flag else 0.
Proof.
  intros Hwf Hin. unfold flag_mappings in Hin.
  repeat (apply elem_of_cons in Hin as [[= -> ->]|Hin]);
    [..|by apply elem_of_nil in Hin];
    unfold ParseCPUFlags, flag_mappings; simpl;
    rewrite !land_if_lor; flag_lands Hwf; simpl;
    rewrite ?if_same, ?Z.lor_0_r; done.
Qed.

End FlagBits.

(** ** [Init] in terms of the lines of the descriptor table *)

Lemma lor_fold_bit (vals : list string) (acc flag : Z) (name : string)
    `{CpuFlags} :
  flags_wf →
  (name, flag) ∈ flag_mappings →
  Z.land (fold_left Z.lor (ParseCPUFlags <$> vals) acc) flag ≠ 0 ↔
  Z.land acc flag ≠ 0 ∨ ∃ value, value ∈ vals ∧ Str.contains value name = true.
Proof.
  intros Hwf Hin.
  assert (flag ≠ 0) as Hflag.
  { destruct Hwf as [Hbits _]. apply single_bit_nonzero.
    apply list_elem_of_lookup in Hin as [i Hi].
    apply (Forall_lookup_1 _ _ i _ Hbits).
    unfold flag_mappings in Hi. unfold all_flags.
    do 7 (destruct i as [|i]; [by injection Hi as _ <-|]). done. }
  revert acc. induction vals as [|v vals IH]; intros acc; simpl.
  - split; [by left|]. intros [?|(value & Hv & _)]; [done|].
    by apply elem_of_nil in Hv.
  - rewrite IH. rewrite Z.land_lor_distr_l, (ParseCPUFlags_bit v name flag) by done.
    split.
    + intros [Hacc|(value & Hv & Hc)].
      * destruct (Str.contains v name) eqn:Hvn.
        -- right. exists v. split; [by left | done].
        -- left. by rewrite Z.lor_0_r in Hacc.
      * right. exists value. split; [by right | done].
    + intros [Hacc|(value & Hv & Hc)].
      * left. intros Hz. apply Z.lor_eq_0_iff in Hz as [Hz _]. done.
      * apply elem_of_cons in Hv as [->|Hv].
        -- left. rewrite Hc. intros Hz. apply Z.lor_eq_0_iff in Hz as [_ Hz]. done.
        -- right. by exists value.
Qed.

Section InitFields.
Context `{CpuFlags} `{FloatModel}.

(** The members [Init] sets from the table, in terms of the scanned
    variables. *)
Lemma Init_scanned (env : Env) :
  0 ≤ get_nprocs_conf env →
  ∃ st,
    Init env static_init = Ok st ∧
    let v := scan_lines (seen_lines (proc_cpuinfo env))
               (mkScan 0 "unknown" float_zero 0) in
    hardware_flags_ st = sv_hardware_flags v ∧
    original_hardware_flags_ st = sv_hardware_flags v ∧
    model_name_ st = sv_model_name v ∧
    num_cores_ st =
      (if 0 <? FLAGS_num_cores env then FLAGS_num_cores env
       else if 0 <? sv_num_cores v then sv_num_cores v else 1) ∧
    cycles_per_ms_ st =
      (if negb (float_is_zero (sv_max_mhz v)) then float_to_cycles (sv_max_mhz v)
       else 1000000).
Proof.
  intros Hcores. unfold Init. rewrite scan_loop_seen.
  rewrite InitNuma_ok by done. eexists. split; [done|]. simpl. done.
Qed.

End InitFields.

Lemma InitNuma_not_empty (env : Env) (st : CpuInfo) :
  numa_node_to_cores_ st ≠ [] →
  0 ≤ max_num_cores_ st →
  InitNuma env st = Crash DcheckFailed.
Proof.
  intros Hne Hcores. unfold InitNuma, new_int_array.
  rewrite bool_decide_true by done. simpl.
  destruct (sys_node_dir env) as [entries|].
  - erewrite fill_loop; [|rewrite length_fmap, length_seqZ; lia|done].
    simpl. unfold InitNumaNodeToCores. simpl.
    by rewrite bool_decide_false.
  - rewrite (fill_loop _ (fun _ => 0)); [|rewrite length_fmap, length_seqZ; lia|done].
    simpl. unfold InitNumaNodeToCores. simpl.
    by rewrite bool_decide_false.
Qed.

(** ** Further properties of [Init] *)

Section InitExtras.
Context `{CpuFlags} `{FloatModel}.

(** X1.  From the static initial state [Init] sets [num_cores_] to the
    [num_cores] flag if that is positive, and otherwise to the number
    of lines with the key [processor] that the scanning loop sees, or
    to 1 if there is none. *)
Theorem Init_num_cores_counts_processor_records (env : Env) :
  0 ≤ get_nprocs_conf env →
  ∃ st,
    Init env static_init = Ok st ∧
    num_cores_ st =
      if 0 <? FLAGS_num_cores env then FLAGS_num_cores env
      else Z.max 1 (Z.of_nat (length (List.filter (has_key "processor")
                                         (seen_lines (proc_cpuinfo env))))).
Proof.
  intros Hcores.
  destruct (Init_scanned env Hcores) as (st & Hrun & _ & _ & _ & Hnum & _).
  exists st. split; [done|]. rewrite Hnum, scan_lines_num_cores. simpl.
  rewrite !Z.add_0_l. set (n := Z.of_nat _).
  destruct (0 <? FLAGS_num_cores env); [done|].
  destruct (Z.ltb_spec 0 n); lia.
Qed.

(** X2.  [Init] sets [model_name_] to the value of the last line with
    the key [model name] that the scanning loop sees, and leaves it
    ["unknown"] if there is none. *)
Theorem Init_model_name_last_record (env : Env) :
  0 ≤ get_nprocs_conf env →
  ∃ st,
    Init env static_init = Ok st ∧
    model_name_ st =
      default "unknown"
        (last (omap (value_of "model name") (seen_lines (proc_cpuinfo env)))).
Proof.
  intros Hcores.
  destruct (Init_scanned env Hcores) as (st & Hrun & _ & _ & Hname & _).
  exists st. split; [done|]. by rewrite Hname, scan_lines_model_name.
Qed.

(** X3.  If no line the scanning loop sees has the key [cpu MHz],
    [Init] sets [cycles_per_ms_] to 1000000, whatever else the table
    holds. *)
Theorem Init_clock_fallback_without_mhz (env : Env) :
  0 ≤ get_nprocs_conf env →
  Forall (fun l => has_key "cpu MHz" l = false) (seen_lines (proc_cpuinfo env)) →
  ∃ st, Init env static_init = Ok st ∧ cycles_per_ms_ st = 1000000.
Proof.
  intros Hcores Hmhz.
  destruct (Init_scanned env Hcores) as (st & Hrun & _ & _ & _ & _ & Hcycles).
  exists st. split; [done|]. rewrite Hcycles, scan_lines_max_mhz by done.
  simpl. by rewrite float_zero_is_zero.
Qed.

(** X4.  For an entry [(name, flag)] of [flag_mappings], with the
    flags distinct single bits: after [Init] the bit [flag] is in
    [hardware_flags_] if and only if some line with the key [flags]
    has a value in which [name] occurs as a substring. *)
Theorem Init_flag_bit_iff_named (env : Env) (name : string) (flag : Z) :
  flags_wf →
  0 ≤ get_nprocs_conf env →
  (name, flag) ∈ flag_mappings →
  ∃ st,
    Init env static_init = Ok st ∧
    (Z.land (hardware_flags_ st) flag ≠ 0 ↔
     ∃ line value,
       line ∈ seen_lines (proc_cpuinfo env) ∧
       value_of "flags" line = Some value ∧
       Str.contains value name = true).
Proof.
  intros Hwf Hcores Hin.
  destruct (Init_scanned env Hcores) as (st & Hrun & Hflags & _).
  exists st. split; [done|]. rewrite Hflags, scan_lines_hardware_flags. simpl.
  rewrite (lor_fold_bit _ _ flag name) by done. rewrite Z.land_0_l. split.
  - intros [?|(value & Hv & Hc)]; [done|].
    apply list_elem_of_omap in Hv as (line & Hline & Hval). by exists line, value.
  - intros (line & value & Hline & Hval & Hc). right. exists value.
    split; [|done]. apply list_elem_of_omap. by exists line.
Qed.

(** X5.  When the table does not end in a newline, its last line is
    scanned twice: if that line is a [processor] record (and the
    [num_cores] flag is not positive), [num_cores_] is one more than
    the number of [processor] lines of the table. *)
Theorem Init_unterminated_last_line_twice (env : Env) (contents l : string) :
  0 ≤ get_nprocs_conf env →
  FLAGS_num_cores env ≤ 0 →
  proc_cpuinfo env = Some contents →
  last (lines contents) = Some l →
  l ≠ "" →
  has_key "processor" l = true →
  ∃ st,
    Init env static_init = Ok st ∧
    num_cores_ st =
      Z.of_nat (length (List.filter (has_key "processor") (lines contents))) + 1.
Proof.
  intros Hcores Hflag Htable Hlast Hl Hproc.
  destruct (Init_scanned env Hcores) as (st & Hrun & _ & _ & _ & Hnum & _).
  exists st. split; [done|]. rewrite Hnum, scan_lines_num_cores, Htable. simpl.
  unfold seen_of_string. rewrite Hlast.
  destruct (String.eqb_spec l "") as [|_]; [done|].
  rewrite List.filter_app, length_app. simpl. rewrite Hproc. simpl.
  rewrite !Z.add_0_l. set (n := Z.of_nat _).
  assert (n = Z.of_nat (length (List.filter (has_key "processor") (lines contents))) + 1)
    as Hn by (unfold n; lia).
  destruct (Z.ltb_spec 0 (FLAGS_num_cores env)); [lia|].
  destruct (Z.ltb_spec 0 n); lia.
Qed.

(** X6.  From the static initial state, on a machine that reports a
    non-negative number of configured processors, [Init] returns and
    leaves a consistent snapshot: [initialized_] is set, the enabled
    mask equals the hardware-supported mask, there is at least one
    active core and one NUMA node, [core_to_numa_node_] has one entry
    per possible core, each a valid node, and the two derived maps
    invert it. *)
Theorem Init_establishes_invariants (env : Env) :
  0 ≤ get_nprocs_conf env →
  ∃ st,
    Init env static_init = Ok st ∧
    initialized_ st = true ∧
    hardware_flags_ st = original_hardware_flags_ st ∧
    enabled_subset st ∧
    1 ≤ num_cores_ st ∧
    max_num_cores_ st = get_nprocs_conf env ∧
    1 ≤ max_num_numa_nodes_ st ∧
    Z.of_nat (length (core_to_numa_node_ st)) = max_num_cores_ st ∧
    nodes_in_range (max_num_numa_nodes_ st) (core_to_numa_node_ st) ∧
    inverse_maps (core_to_numa_node_ st) (max_num_numa_nodes_ st)
      (numa_node_to_cores_ st) (numa_node_core_idx_ st).
Proof.
  intros Hcores.
  destruct (Init_returns env Hcores)
    as (st & Hrun & Hinit & Hmask & Hmax & Hnum & Hnodes & Hlen & Hrange & Hinv).
  exists st. do 3 (split; [done|]). split; [|repeat (split; [done|]); done].
  unfold enabled_subset. rewrite Hmask. apply Z.land_lnot_diag.
Qed.

(** X7.  [Init] cannot be run a second time: after a first [Init], a
    second one ends in the failed [DCHECK] of [InitNumaNodeToCores],
    because the node table of the first run is not empty. *)
Theorem Init_twice_aborts (env env' : Env) :
  0 ≤ get_nprocs_conf env →
  0 ≤ get_nprocs_conf env' →
  ∃ st,
    Init env static_init = Ok st ∧
    Init env' st = Crash DcheckFailed.
Proof.
  intros Hcores Hcores'.
  destruct (Init_returns env Hcores)
    as (st & Hrun & _ & _ & _ & _ & Hnodes & _ & _ & Hinv).
  exists st. split; [done|]. unfold Init. rewrite scan_loop_seen.
  rewrite InitNuma_not_empty; [done| |done]. simpl.
  destruct Hinv as (Hlen & _). intros Hempty. rewrite Hempty in Hlen.
  simpl in Hlen. lia.
Qed.

End InitExtras.

(** ** How a line is cut into key and value *)

Lemma append_empty (s : string) : "" ++ s = s.
Proof. reflexivity. Qed.

Lemma append_cons (c : ascii) (s t : string) : String c s ++ t = String c (s ++ t).
Proof. reflexivity. Qed.

Lemma find_app_none (c : ascii) (key s : string) :
  Str.find c key = None →
  Str.find c (key ++ s) = N.add (N.of_nat (String.length key)) <$> Str.find c s.
Proof.
  induction key as [|d key IH]; rewrite ?append_empty, ?append_cons; simpl.
  - intros _. destruct (Str.find c s); simpl; [f_equal; lia | done].
  - destruct (Ascii.eqb d c); [done|].
    destruct (Str.find c key) eqn:Hkey; [done|]. intros _.
    rewrite IH by done. destruct (Str.find c s); simpl; [f_equal; lia | done].
Qed.

Lemma substring_prefix (s t : string) :
  String.substring 0 (String.length s) (s ++ t) = s.
Proof.
  induction s as [|c s IH]; rewrite ?append_empty, ?append_cons; simpl;
    [by destruct t | by rewrite IH].
Qed.

Lemma substring_skip (p t : string) (n m : nat) :
  String.substring (String.length p + n) m (p ++ t) = String.substring n m t.
Proof.
  induction p as [|c p IH]; rewrite ?append_empty, ?append_cons; simpl;
    [done | apply IH].
Qed.

Lemma substring_all (s : string) : String.substring 0 (String.length s) s = s.
Proof. induction s as [|c s IH]; simpl; [done | by rewrite IH]. Qed.

Lemma string_length_app (s t : string) :
  String.length (s ++ t) = (String.length s + String.length t)%nat.
Proof.
  induction s as [|c s IH]; rewrite ?append_empty, ?append_cons; simpl;
    [done | by rewrite IH].
Qed.

Lemma trim_keeps_first (c : ascii) (s : string) :
  Str.is_space c = false → ∃ t, Str.trim (String c s) = String c t.
Proof.
  intros Hc. unfold Str.trim. simpl.
  destruct (Str.trim_right s) as [|d t]; rewrite ?Hc; simpl; rewrite Hc; by eexists.
Qed.

(** X8.  A line [key], one more character, a colon, [value] (with no
    colon in [key]) is read as the record with name [key] and value
    [value], both trimmed: the character right before the colon is
    dropped whatever it is, so a key glued to its colon loses its last
    letter. *)
Theorem record_of_key_value (key value : string) (sep : ascii) :
  Str.find ":" key = None →
  sep ≠ ":"%char →
  (N.of_nat (String.length key + String.length value) + 2 < 2 ^ 64)%N →
  record_of (key ++ String sep (String ":" value)) =
  Some (Str.trim key, Str.trim value).
Proof.
  intros Hkey Hsep Hlen. unfold record_of.
  rewrite find_app_none by done. simpl.
  destruct (Ascii.eqb_spec sep ":") as [|_]; [done|]. simpl.
  unfold line_name, line_value, Str.substr, Str.size_sub, Str.npos.
  rewrite !string_length_app. simpl.
  set (k := String.length key) in *. set (n := String.length value) in *.
  replace ((N.of_nat k + N.succ 0 + 2 ^ 64 - 1) mod 2 ^ 64)%N with (N.of_nat k);
    last first.
  { replace (N.of_nat k + N.succ 0 + 2 ^ 64 - 1)%N
      with (N.of_nat k + 1 * 2 ^ 64)%N by lia.
    rewrite N.Div0.mod_add. symmetry. apply N.mod_small. lia. }
  replace (N.min (N.of_nat k) (N.of_nat (k + S (S n)) - 0))%N with (N.of_nat k)
    by lia.
  replace (N.min (2 ^ 64 - 1) (N.of_nat (k + S (S n)) - (N.of_nat k + N.succ 0 + 1)))%N
    with (N.of_nat n) by lia.
  replace (N.to_nat (N.of_nat k + N.succ 0 + 1)) with (k + 2)%nat by lia.
  rewrite !Nat2N.id. change (N.to_nat 0) with 0%nat. unfold k, n.
  rewrite substring_prefix, substring_skip. simpl. by rewrite substring_all.
Qed.

(** X9.  With the colon in column 0 the count [colon - 1] wraps
    around, the name is the whole trimmed line, colon included, and
    the line is never a recognized record. *)
Theorem record_of_leading_colon (rest : string) :
  (N.of_nat (String.length rest) + 1 < 2 ^ 64)%N →
  record_of (String ":" rest) = Some (Str.trim (String ":" rest), Str.trim rest) ∧
  recognized (String ":" rest) = false.
Proof.
  intros Hlen.
  assert (line_name (String ":" rest) 0 = Str.trim (String ":" rest)) as Hname.
  { unfold line_name, Str.substr. do 1 f_equal.
    change (Str.size_sub 0 1) with (2 ^ 64 - 1)%N.
    replace (N.min (2 ^ 64 - 1) (N.of_nat (String.length (String ":" rest)) - 0))%N
      with (N.of_nat (String.length (String ":" rest))) by (simpl; lia).
    rewrite Nat2N.id. apply substring_all. }
  split.
  - unfold record_of. simpl Str.find. cbv iota. rewrite Hname. do 2 f_equal.
    unfold line_value, Str.substr, Str.npos. f_equal.
    replace (N.min (2 ^ 64 - 1) (N.of_nat (String.length (String ":" rest)) - (0 + 1)))%N
      with (N.of_nat (String.length rest)) by (simpl; lia).
    rewrite Nat2N.id. simpl. apply substring_all.
  - unfold recognized. simpl Str.find. cbv iota. cbv zeta. rewrite Hname.
    destruct (trim_keeps_first ":" rest eq_refl) as [t ->]. reflexivity.
Qed.

(** ** [EnableFeature] and the two masks *)

Lemma single_bit_within (flag mask : Z) :
  single_bit flag → Z.land mask flag ≠ 0 → Z.land flag (Z.lnot mask) = 0.
Proof.
  intros (k & Hk & ->) Hin. rewrite Z.shiftl_1_l in *.
  destruct (Z.testbit mask k) eqn:Hbit.
  - apply Z.bits_inj'. intros n Hn.
    rewrite Z.land_spec, Z.lnot_spec, Z.pow2_bits_eqb, Z.bits_0 by lia.
    destruct (Z.eqb_spec k n) as [->|]; [by rewrite Hbit | done].
  - destruct Hin. apply Z.bits_inj'. intros n Hn.
    rewrite Z.land_spec, Z.pow2_bits_eqb, Z.bits_0 by lia.
    destruct (Z.eqb_spec k n) as [->|]; [by rewrite Hbit | apply andb_false_r].
Qed.

Lemma EnableFeature_keeps_subset (flag : Z) (enable : bool) (st st' : CpuInfo) :
  single_bit flag →
  enabled_subset st →
  EnableFeature flag enable st = Ok st' →
  enabled_subset st' ∧ original_hardware_flags_ st' = original_hardware_flags_ st.
Proof.
  unfold EnableFeature, enabled_subset. intros Hbit Hsub Hrun.
  destruct (initialized_ st); simpl in Hrun; [|done].
  destruct enable; simpl in Hrun.
  - destruct (Z.eqb_spec (Z.land (original_hardware_flags_ st) flag) 0) as [|Hin];
      simpl in Hrun; [done|].
    injection Hrun as <-. simpl. split; [|done].
    rewrite Z.land_lor_distr_l, Hsub, (single_bit_within _ _ Hbit Hin). done.
  - injection Hrun as <-. simpl. split; [|done].
    rewrite <- Z.land_assoc, (Z.land_comm (Z.lnot flag)), Z.land_assoc, Hsub.
    apply Z.land_0_l.
Qed.

(** X10.  Any sequence of [EnableFeature] calls with single-bit flags
    that returns keeps the enabled mask inside the hardware-supported
    mask and leaves the hardware-supported mask as it was. *)
Theorem toggle_features_keep_subset (ops : list (Z * bool)) (st st' : CpuInfo) :
  Forall (fun op => single_bit op.1) ops →
  enabled_subset st →
  toggle_features ops st = Ok st' →
  enabled_subset st' ∧ original_hardware_flags_ st' = original_hardware_flags_ st.
Proof.
  unfold toggle_features. intros Hops. revert st.
  induction Hops as [|[flag enable] ops Hbit _ IH]; intros st Hsub Hrun; simpl in *.
  - by injection Hrun as <-.
  - destruct (EnableFeature flag enable st) as [st1|] eqn:Hstep; simpl in Hrun; [|done].
    destruct (EnableFeature_keeps_subset _ _ _ _ Hbit Hsub Hstep) as [Hsub1 Horig1].
    destruct (IH st1 Hsub1 Hrun) as [Hsub' Horig']. split; [done | congruence].
Qed.

(** X11.  [EnableFeature] changes nothing but the bits of its flag:
    a mask that shares no bit with [flag] reads the same from
    [hardware_flags_] before and after, and every other member is
    unchanged. *)
Theorem EnableFeature_other_bits (flag other : Z) (enable : bool) (st st' : CpuInfo) :
  Z.land flag other = 0 →
  EnableFeature flag enable st = Ok st' →
  Z.land (hardware_flags_ st') other = Z.land (hardware_flags_ st) other ∧
  st' = with_flags_ (hardware_flags_ st') st.
Proof.
  unfold EnableFeature. intros Hdisjoint Hrun.
  destruct (initialized_ st); simpl in Hrun; [|done].
  destruct enable; simpl in Hrun.
  - destruct (Z.land (original_hardware_flags_ st) flag =? 0); simpl in Hrun; [done|].
    injection Hrun as <-. simpl. split; [|done].
    by rewrite Z.land_lor_distr_l, Hdisjoint, Z.lor_0_r.
  - injection Hrun as <-. simpl. split; [|done].
    apply Z.bits_inj'. intros n Hn.
    apply (f_equal (fun x => Z.testbit x n)) in Hdisjoint.
    rewrite Z.land_spec, Z.bits_0 in Hdisjoint.
    rewrite !Z.land_spec, Z.lnot_spec by done.
    by destruct (Z.testbit (hardware_flags_ st) n), (Z.testbit flag n),
      (Z.testbit other n).
Qed.

(** ** Further properties of the NUMA functions *)

Lemma for_each_ext {St X} (body1 body2 : X → St → result St) (xs : list X) (s : St) :
  (∀ x s, body1 x s = body2 x s) →
  for_each body1 xs s = for_each body2 xs s.
Proof.
  intros Hext. revert s. induction xs as [|x xs IH]; intros s; simpl; [done|].
  rewrite Hext. destruct (body2 x s); simpl; [apply IH | done].
Qed.

Lemma find_seqZ_first (P : Z → bool) (m n x : Z) :
  List.find P (seqZ m n) = Some x →
  m ≤ x < m + n ∧ P x = true ∧ ∀ y, m ≤ y < x → P y = false.
Proof.
  remember (Z.to_nat n) as k eqn:Hk. revert m n Hk.
  induction k as [|k IH]; intros m n Hk Hfind.
  - rewrite seqZ_nil in Hfind by lia. done.
  - rewrite seqZ_cons in Hfind by lia. simpl in Hfind.
    destruct (P m) eqn:Hm.
    + injection Hfind as <-. repeat split; (lia || done).
    + destruct (IH (Z.succ m) (Z.pred n) ltac:(lia) Hfind) as (Hx & HPx & Hbefore).
      split; [lia|]. split; [done|]. intros y Hy.
      destruct (decide (y = m)) as [->|]; [done|]. apply Hbefore. lia.
Qed.

Lemma find_seqZ_none (P : Z → bool) (m n : Z) :
  List.find P (seqZ m n) = None → ∀ y, m ≤ y < m + n → P y = false.
Proof.
  intros Hfind y Hy. eapply find_none; [exact Hfind|].
  by apply list_elem_of_In, elem_of_seqZ.
Qed.

Lemma discover_node_one (env : Env) (core : Z) : discover_node env 1 core = 0.
Proof.
  unfold discover_node, int_range. change (seqZ 0 1) with [0]. simpl.
  by destruct (cpu_node_link env core 0).
Qed.

(** X12.  With the NUMA directory present, [InitNuma] counts the
    entries whose name starts with [node] (taking 1 if there is none)
    and puts every core on the lowest-numbered node below that count
    whose link exists, or on node 0 if no such link exists. *)
Theorem InitNuma_first_linked_node (env : Env) (st : CpuInfo) (entries : list string) :
  sys_node_dir env = Some entries →
  numa_node_to_cores_ st = [] →
  0 ≤ max_num_cores_ st →
  ∃ st',
    InitNuma env st = Ok st' ∧
    max_num_numa_nodes_ st' =
      Z.max 1 (Z.of_nat (length (List.filter (Str.starts_with "node") entries))) ∧
    ∀ core, 0 ≤ core < max_num_cores_ st →
      ∃ node,
        core_to_numa_node_ st' !! Z.to_nat core = Some node ∧
        ((0 ≤ node < max_num_numa_nodes_ st' ∧
          cpu_node_link env core node = true ∧
          ∀ lower, 0 ≤ lower < node → cpu_node_link env core lower = false) ∨
         (node = 0 ∧
          ∀ other, 0 ≤ other < max_num_numa_nodes_ st' →
                   cpu_node_link env core other = false)).
Proof.
  intros Hdir Hempty Hcores. eexists. split; [by apply InitNuma_ok|]. simpl.
  assert (discovered_nodes env =
          Z.max 1 (Z.of_nat (length (List.filter (Str.starts_with "node") entries))))
    as Hcount.
  { unfold discovered_nodes. rewrite Hdir. simpl.
    destruct (Z.eqb_spec (Z.of_nat (length (List.filter (Str.starts_with "node")
                                              entries))) 0); lia. }
  split; [done|]. intros core Hcore.
  exists (discover_node env (discovered_nodes env) core). split.
  - unfold discovered_map. rewrite Hdir.
    rewrite list_lookup_fmap, lookup_seqZ_lt by lia. simpl. do 2 f_equal. lia.
  - unfold discover_node, int_range.
    destruct (List.find _ _) as [node|] eqn:Hfind.
    + apply find_seqZ_first in Hfind as (Hin & Hlink & Hlower). left.
      split; [lia|]. split; [done|]. intros lower Hl. apply Hlower. lia.
    + right. split; [done|]. intros other Ho.
      by apply (find_seqZ_none _ _ _ Hfind).
Qed.

(** X13.  A NUMA directory without a single [node] entry is treated
    like a missing directory: [InitNuma] gives the same result in both
    cases, on every state. *)
Theorem InitNuma_no_node_entries (env env0 : Env) (st : CpuInfo) (entries : list string) :
  sys_node_dir env = Some entries →
  List.filter (Str.starts_with "node") entries = [] →
  sys_node_dir env0 = None →
  InitNuma env st = InitNuma env0 st.
Proof.
  intros Hdir Hnone Hdir0. unfold InitNuma, new_int_array.
  rewrite Hdir, Hdir0, Hnone. simpl.
  case_bool_decide as Hcores; simpl; [|done].
  rewrite (for_each_ext _ (fun core a => vec_set a core 0))
    by (intros core a; by rewrite discover_node_one).
  (* both loops overwrite every element of their fresh array *)
  by rewrite !(fill_loop _ (fun _ => 0))
    by (done || (rewrite length_fmap, length_seqZ; lia)).
Qed.

Lemma discover_node_ext (env env' : Env) (max_nodes core : Z) :
  (∀ node, cpu_node_link env' core node = cpu_node_link env core node) →
  discover_node env' max_nodes core = discover_node env max_nodes core.
Proof.
  intros Hlink. unfold discover_node.
  induction (int_range max_nodes) as [|node nodes IH]; simpl; [done|].
  rewrite Hlink. by destruct (cpu_node_link env core node).
Qed.

(** X24.  [InitNuma] stores to every element of the array it allocates
    before anything reads it: what the fresh storage held has no
    influence on the result.  Two environments with the same NUMA
    directory and the same cpu/node links give the same result, on
    every state. *)
Theorem InitNuma_overwrites_fresh_storage (env env' : Env) (st : CpuInfo) :
  sys_node_dir env' = sys_node_dir env →
  (∀ core node, cpu_node_link env' core node = cpu_node_link env core node) →
  InitNuma env' st = InitNuma env st.
Proof.
  intros Hdir Hlink. unfold InitNuma, new_int_array. rewrite Hdir.
  case_bool_decide as Hcores; simpl; [|done].
  destruct (sys_node_dir env) as [entries|]; simpl.
  - set (nodes := if _ =? 0 then 1 else _).
    rewrite (for_each_ext _
               (fun core a => vec_set a core (discover_node env nodes core))
               (int_range (max_num_cores_ st)) (fresh_int env' <$> _))
      by (intros core a; by rewrite (discover_node_ext env env')).
    by rewrite !(fill_loop _ (discover_node env nodes))
      by (done || (rewrite length_fmap, length_seqZ; lia)).
  - by rewrite !(fill_loop _ (fun _ => 0))
      by (done || (rewrite length_fmap, length_seqZ; lia)).
Qed.

Lemma InitFakeNumaForTest_fixpoint (st : CpuInfo) :
  Z.of_nat (length (core_to_numa_node_ st)) = max_num_cores_ st →
  0 ≤ max_num_numa_nodes_ st →
  nodes_in_range (max_num_numa_nodes_ st) (core_to_numa_node_ st) →
  numa_node_to_cores_ st =
    derived_nodes (core_to_numa_node_ st) (max_num_numa_nodes_ st) (max_num_cores_ st) →
  numa_node_core_idx_ st = derived_idx (core_to_numa_node_ st) (max_num_cores_ st) →
  InitFakeNumaForTest (max_num_numa_nodes_ st) (core_to_numa_node_ st) st = Ok st.
Proof.
  intros Hlen Hnodes Hrange Htable Hidx.
  rewrite InitFakeNumaForTest_ok by done. f_equal.
  destruct st. simpl in *. by rewrite <- Htable, <- Hidx.
Qed.

(** X14.  Of two calls of [InitFakeNumaForTest] the second one wins:
    the state after both is the state after the second alone. *)
Theorem InitFakeNumaForTest_last_wins (nodes1 nodes2 : Z) (map1 map2 : list Z)
    (st : CpuInfo) :
  Z.of_nat (length (core_to_numa_node_ st)) = max_num_cores_ st →
  Z.of_nat (length map1) = max_num_cores_ st →
  Z.of_nat (length map2) = max_num_cores_ st →
  0 ≤ nodes1 → nodes_in_range nodes1 map1 →
  0 ≤ nodes2 → nodes_in_range nodes2 map2 →
  (st1 ← InitFakeNumaForTest nodes1 map1 st; InitFakeNumaForTest nodes2 map2 st1)
  = InitFakeNumaForTest nodes2 map2 st ∧
  is_ok (InitFakeNumaForTest nodes2 map2 st) = true.
Proof.
  intros Halloc Hlen1 Hlen2 Hn1 Hr1 Hn2 Hr2.
  rewrite (InitFakeNumaForTest_ok nodes1 map1 st) by done. simpl.
  rewrite !InitFakeNumaForTest_ok by done. done.
Qed.

Section NumaAfterInit.
Context `{CpuFlags} `{FloatModel}.

Lemma Init_numa_shape (env : Env) :
  0 ≤ get_nprocs_conf env →
  ∃ st,
    Init env static_init = Ok st ∧
    max_num_cores_ st = get_nprocs_conf env ∧
    Z.of_nat (length (core_to_numa_node_ st)) = max_num_cores_ st ∧
    1 ≤ max_num_numa_nodes_ st ∧
    nodes_in_range (max_num_numa_nodes_ st) (core_to_numa_node_ st) ∧
    numa_node_to_cores_ st =
      derived_nodes (core_to_numa_node_ st) (max_num_numa_nodes_ st)
        (max_num_cores_ st) ∧
    numa_node_core_idx_ st = derived_idx (core_to_numa_node_ st) (max_num_cores_ st).
Proof.
  intros Hcores. unfold Init. rewrite scan_loop_seen.
  rewrite InitNuma_ok by done. eexists. split; [done|]. simpl.
  pose proof (length_discovered_map env (get_nprocs_conf env)).
  split; [done|]. split; [lia|]. split; [apply discovered_nodes_pos|].
  split; [apply discovered_map_in_range|]. done.
Qed.

(** X15.  Injecting, through the test override, the very topology that
    [Init] discovered is a round trip: the call returns the state
    unchanged. *)
Theorem InitFakeNumaForTest_discovered_round_trip (env : Env) :
  0 ≤ get_nprocs_conf env →
  ∃ st,
    Init env static_init = Ok st ∧
    InitFakeNumaForTest (max_num_numa_nodes_ st) (core_to_numa_node_ st) st = Ok st.
Proof.
  intros Hcores.
  destruct (Init_numa_shape env Hcores)
    as (st & Hrun & _ & Hlen & Hnodes & Hrange & Htable & Hidx).
  exists st. split; [done|]. apply InitFakeNumaForTest_fixpoint; (done || lia).
Qed.

Lemma GetCurrentCore_ok_range (b : Build) (env : Env) (st : CpuInfo) (occurrences : Z) :
  0 < max_num_cores_ st →
  ∃ q, GetCurrentCore b env st occurrences = Ok q ∧
       0 ≤ current_core q < max_num_cores_ st.
Proof.
  intros Hmax. unfold GetCurrentCore.
  destruct (HAVE_SCHED_GETCPU b); [|eexists; split; [done|simpl; lia]].
  destruct (Z.ltb_spec (sched_getcpu env) 0); [eexists; split; [done|simpl; lia]|].
  destruct (Z.leb_spec (max_num_cores_ st) (sched_getcpu env));
    [|eexists; split; [done|simpl; lia]].
  destruct (LOG_FIRST_N MAX_WARNINGS occurrences) as [occurrences' logged].
  destruct (Z.eqb_spec (max_num_cores_ st) 0); [lia|].
  eexists. split; [done|]. simpl. rewrite Z.rem_mod_nonneg by lia.
  apply Z.mod_pos_bound. lia.
Qed.

(** X16.  After [Init] on a machine with at least one configured
    processor, whatever [sched_getcpu] reports and whatever the build,
    [GetCurrentCore] returns a core that has a NUMA node in
    [core_to_numa_node_], a valid one, and that is listed for that
    node at its local index. *)
Theorem Init_then_GetCurrentCore_has_node (env env' : Env) (b : Build)
    (occurrences : Z) :
  1 ≤ get_nprocs_conf env →
  ∃ st q node idx cores,
    Init env static_init = Ok st ∧
    GetCurrentCore b env' st occurrences = Ok q ∧
    core_to_numa_node_ st !! Z.to_nat (current_core q) = Some node ∧
    0 ≤ node < max_num_numa_nodes_ st ∧
    numa_node_core_idx_ st !! Z.to_nat (current_core q) = Some idx ∧
    numa_node_to_cores_ st !! Z.to_nat node = Some cores ∧
    cores !! Z.to_nat idx = Some (current_core q).
Proof.
  intros Hcores.
  destruct (Init_returns env ltac:(lia))
    as (st & Hrun & _ & _ & Hmax & _ & _ & Hlen & Hrange & Hinv).
  destruct (GetCurrentCore_ok_range b env' st occurrences ltac:(lia))
    as (q & Hq & Hin).
  destruct (lookup_lt_is_Some_2 (core_to_numa_node_ st) (Z.to_nat (current_core q)))
    as [node Hnode]; [lia|].
  destruct Hinv as (_ & _ & _ & _ & _ & Hround).
  destruct (Hround (current_core q) node ltac:(lia) Hnode)
    as (idx & cores & Hidx & _ & Hcoresl & Hback).
  exists st, q, node, idx, cores. repeat split; try done.
  - by apply (Forall_lookup_1 _ _ _ _ Hrange Hnode).
  - by apply (Forall_lookup_1 _ _ _ _ Hrange Hnode).
Qed.

End NumaAfterInit.

(** ** The governor and turbo checks *)

Lemma getline_first_line (contents : string) :
  ∃ f l, getline (ifstream_open (Some contents)) "" = (f, l) ∧
         head (lines contents) = Some l.
Proof.
  unfold getline. simpl.
  destruct (read_until_newline contents) as [[l rest] hit_eof] eqn:Hread.
  apply read_until_newline_lines in Hread as (Hlines & _).
  eexists _, l. split; [done|]. by rewrite Hlines.
Qed.

(** What [WarnIfFileNotEqual] logs, by cases on the file. *)
Lemma WarnIfFileNotEqual_cases (fs : string → option string)
    (filename expected warning_text : string) :
  match fs filename with
  | None => WarnIfFileNotEqual fs filename expected warning_text = []
  | Some contents =>
      ∃ actual,
        head (lines contents) = Some actual ∧
        WarnIfFileNotEqual fs filename expected warning_text =
          if String.eqb actual expected then []
          else ["Expected " ++ expected ++ ", actual " ++ actual ++ newline
                ++ warning_text]
  end.
Proof.
  unfold WarnIfFileNotEqual. destruct (fs filename) as [contents|]; [|done].
  destruct (getline_first_line contents) as (f & l & Hget & Hhead).
  exists l. split; [done|]. change (stream_ok _) with true. cbv iota. simpl negb.
  cbv iota. rewrite Hget. by destruct (String.eqb l expected).
Qed.

Lemma WarnIfFileNotEqual_silent_iff (fs : string → option string)
    (filename expected warning_text : string) :
  WarnIfFileNotEqual fs filename expected warning_text = [] ↔
  match fs filename with
  | None => True
  | Some contents => head (lines contents) = Some expected
  end.
Proof.
  pose proof (WarnIfFileNotEqual_cases fs filename expected warning_text) as Hcases.
  destruct (fs filename) as [contents|]; [|done].
  destruct Hcases as (actual & Hhead & ->). rewrite Hhead.
  destruct (String.eqb_spec actual expected) as [->|Hne]; [done|].
  split; [done|]. intros [= ?]. done.
Qed.

Lemma WarnIfFileNotEqual_length (fs : string → option string)
    (filename expected warning_text : string) :
  (length (WarnIfFileNotEqual fs filename expected warning_text) ≤ 1)%nat.
Proof.
  pose proof (WarnIfFileNotEqual_cases fs filename expected warning_text) as Hcases.
  destruct (fs filename) as [contents|]; [|rewrite Hcases; simpl; lia].
  destruct Hcases as (actual & _ & ->).
  destruct (String.eqb actual expected); simpl; lia.
Qed.

Lemma lines_head_app (expected rest : string) :
  Str.find "010" expected = None →
  head (lines (expected ++ newline ++ rest)) = Some expected ∧
  head (lines expected) = Some expected.
Proof.
  induction expected as [|c e IH]; rewrite ?append_empty, ?append_cons; simpl.
  - done.
  - destruct (Ascii.eqb c "010"); [done|].
    destruct (Str.find "010" e) eqn:He; [done|]. intros _.
    destruct (IH eq_refl) as [Hfull Hshort].
    split.
    + destruct (lines (e ++ newline ++ rest)); simpl in *; congruence.
    + destruct (lines e); simpl in *; congruence.
Qed.

(** X17.  [WarnIfFileNotEqual] logs nothing when the file cannot be
    opened, and otherwise logs exactly when the first line of the file
    differs from [expected]; it never logs more than the one message,
    which quotes the expected and the actual first line. *)
Theorem WarnIfFileNotEqual_first_line (fs : string → option string)
    (filename expected warning_text : string) :
  (WarnIfFileNotEqual fs filename expected warning_text = [] ↔
   match fs filename with
   | None => True
   | Some contents => head (lines contents) = Some expected
   end) ∧
  (∀ msg, msg ∈ WarnIfFileNotEqual fs filename expected warning_text →
     WarnIfFileNotEqual fs filename expected warning_text = [msg] ∧
     ∃ contents actual,
       fs filename = Some contents ∧
       head (lines contents) = Some actual ∧
       actual ≠ expected ∧
       msg = "Expected " ++ expected ++ ", actual " ++ actual ++ newline
             ++ warning_text).
Proof.
  split; [apply WarnIfFileNotEqual_silent_iff|].
  pose proof (WarnIfFileNotEqual_cases fs filename expected warning_text) as Hcases.
  intros msg Hmsg. destruct (fs filename) as [contents|].
  - destruct Hcases as (actual & Hhead & Hlog). rewrite Hlog in *.
    destruct (String.eqb_spec actual expected) as [|Hne];
      [by apply elem_of_nil in Hmsg|].
    apply list_elem_of_singleton in Hmsg as ->. split; [done|].
    by exists contents, actual.
  - rewrite Hcases in Hmsg. by apply elem_of_nil in Hmsg.
Qed.

(** X18.  Only the first line of the file counts, and its newline is
    optional: a file that holds [expected] alone, or [expected]
    followed by a newline and anything else, is accepted silently. *)
Theorem WarnIfFileNotEqual_accepts (fs : string → option string)
    (filename expected warning_text rest : string) :
  Str.find "010" expected = None →
  fs filename = Some expected ∨ fs filename = Some (expected ++ newline ++ rest) →
  WarnIfFileNotEqual fs filename expected warning_text = [].
Proof.
  intros Hline Hfile. apply WarnIfFileNotEqual_silent_iff.
  destruct (lines_head_app expected rest Hline) as [Hfull Hshort].
  by destruct Hfile as [-> | ->].
Qed.

(** X19.  [VerifyTurboDisabled] is silent exactly when the [no_turbo]
    file cannot be opened or its first line is [1]. *)
Theorem VerifyTurboDisabled_silent_iff (fs : string → option string) :
  VerifyTurboDisabled fs = [] ↔
  fs no_turbo_file = None ∨
  ∃ contents, fs no_turbo_file = Some contents ∧ head (lines contents) = Some "1".
Proof.
  unfold VerifyTurboDisabled. rewrite WarnIfFileNotEqual_silent_iff.
  destruct (fs no_turbo_file) as [contents|].
  - split; [intros Hhead; right; by exists contents|].
    intros [?|(c & [= <-] & Hhead)]; done.
  - split; [by left | done].
Qed.

Lemma for_each_append {X A} (g : X → list A) (xs : list X) (log : list A) :
  for_each (fun x log => Ok (log ++ g x)%list) xs log
  = Ok (log ++ concat (g <$> xs))%list.
Proof.
  revert log. induction xs as [|x xs IH]; intros log; simpl.
  - by rewrite app_nil_r.
  - rewrite IH. by rewrite <- app_assoc.
Qed.

Lemma concat_fmap_nil {X A} (g : X → list A) (xs : list X) :
  concat (g <$> xs) = [] ↔ Forall (fun x => g x = []) xs.
Proof.
  induction xs as [|x xs IH]; csimpl.
  - split; [constructor | done].
  - rewrite Forall_cons, <- IH.
    split; [by intros [-> ->]%app_eq_nil | by intros [-> ->]].
Qed.

(** X20.  [VerifyPerformanceGovernor] aborts on the [DCHECK] of
    [num_cores()] before [Init]; afterwards it returns, logs at most
    one message per active core, and logs nothing exactly when every
    core below [num_cores_] has a governor file that cannot be opened
    or whose first line is [performance]. *)
Theorem VerifyPerformanceGovernor_log (Substitute : string → list Z → string)
    (fs : string → option string) (st : CpuInfo) :
  (initialized_ st = false →
   VerifyPerformanceGovernor Substitute fs st = Crash DcheckFailed) ∧
  (initialized_ st = true →
   ∃ log,
     VerifyPerformanceGovernor Substitute fs st = Ok log ∧
     (length log ≤ Z.to_nat (num_cores_ st))%nat ∧
     (log = [] ↔
      ∀ cpu_id, 0 ≤ cpu_id < num_cores_ st →
        match fs (Substitute governor_format [cpu_id]) with
        | None => True
        | Some contents => head (lines contents) = Some "performance"
        end)).
Proof.
  unfold VerifyPerformanceGovernor, num_cores. split; intros ->; simpl; [done|].
  rewrite for_each_append. simpl. eexists. split; [done|]. unfold int_range.
  split.
  - rewrite <- (length_seqZ 0 (num_cores_ st)).
    induction (seqZ 0 (num_cores_ st)) as [|x xs IH]; csimpl; [done|].
    rewrite length_app.
    pose proof (WarnIfFileNotEqual_length fs (Substitute governor_format [x])
                  "performance" (Substitute governor_warning_format [x])).
    lia.
  - rewrite concat_fmap_nil, Forall_seqZ. split; intros Hq cpu_id Hcpu.
    + eapply (proj1 (WarnIfFileNotEqual_silent_iff fs _ "performance" _)), Hq. lia.
    + eapply (proj2 (WarnIfFileNotEqual_silent_iff fs _ "performance" _)), Hq. lia.
Qed.

Section ParseExtras.
Context `{CpuFlags} `{FloatModel}.

(** X21.  With the flags distinct single bits, the bitmap
    [ParseCPUFlags] returns has the bit of a table entry exactly when
    the entry's name occurs as a substring of [values], and has no bit
    outside the flags of the table. *)
Theorem ParseCPUFlags_sets_named_bits (values : string) :
  flags_wf →
  (∀ name flag, (name, flag) ∈ flag_mappings →
     Z.land (ParseCPUFlags values) flag =
     if Str.contains values name then flag else 0) ∧
  (∀ other, (∀ flag, flag ∈ all_flags → Z.land flag other = 0) →
     Z.land (ParseCPUFlags values) other = 0).
Proof.
  intros Hwf. split.
  - intros name flag Hin. by apply ParseCPUFlags_bit.
  - intros other Hother. unfold ParseCPUFlags, flag_mappings. simpl.
    rewrite !land_if_lor, Z.land_0_l.
    rewrite !Hother
      by (unfold all_flags;
          repeat first [apply list_elem_of_here | apply list_elem_of_further]).
    by rewrite !if_same.
Qed.

End ParseExtras.

(** ** The further properties at concrete machines *)

Lemma Init_num_cores_counts_processor_records_witness :
  0 ≤ get_nprocs_conf env_kernel_style ∧
  ∃ st, Init env_kernel_style static_init = Ok st ∧ num_cores_ st = 3.
Proof.
  split; [vm_compute; discriminate|].
  destruct (Init_num_cores_counts_processor_records env_kernel_style
              ltac:(vm_compute; discriminate)) as (st & Hrun & Hnum).
  exists st. split; [exact Hrun|]. vm_compute in Hnum. exact Hnum.
Defined.

Lemma Init_model_name_last_record_witness :
  0 ≤ get_nprocs_conf env_kernel_style ∧
  ∃ st, Init env_kernel_style static_init = Ok st ∧
        model_name_ st = "Example CPU @ 2.40GHz".
Proof.
  split; [vm_compute; discriminate|].
  destruct (Init_model_name_last_record env_kernel_style
              ltac:(vm_compute; discriminate)) as (st & Hrun & Hname).
  exists st. split; [exact Hrun|]. vm_compute in Hname. exact Hname.
Defined.

Lemma Init_clock_fallback_without_mhz_witness :
  0 ≤ get_nprocs_conf env_kernel_style ∧
  Forall (fun l => has_key "cpu MHz" l = false)
    (seen_lines (proc_cpuinfo env_kernel_style)) ∧
  ∃ st, Init env_kernel_style static_init = Ok st ∧ cycles_per_ms_ st = 1000000.
Proof.
  assert (Forall (fun l => has_key "cpu MHz" l = false)
            (seen_lines (proc_cpuinfo env_kernel_style))) as Hmhz
    by (apply (bool_decide_unpack _); vm_compute; exact I).
  split; [vm_compute; discriminate|]. split; [exact Hmhz|].
  exact (Init_clock_fallback_without_mhz env_kernel_style
           ltac:(vm_compute; discriminate) Hmhz).
Defined.

Lemma Init_flag_bit_iff_named_witness :
  flags_wf ∧
  0 ≤ get_nprocs_conf env_kernel_style ∧
  ("avx", AVX) ∈ flag_mappings ∧
  ∃ st, Init env_kernel_style static_init = Ok st ∧
        Z.land (hardware_flags_ st) AVX ≠ 0.
Proof.
  assert (("avx", AVX) ∈ flag_mappings) as Hin
    by (do 4 apply list_elem_of_further; apply list_elem_of_here).
  split; [exact impala_flags_wf|]. split; [vm_compute; discriminate|].
  split; [exact Hin|].
  destruct (Init_flag_bit_iff_named env_kernel_style "avx" AVX impala_flags_wf
              ltac:(vm_compute; discriminate) Hin) as (st & Hrun & Hbit).
  exists st. split; [exact Hrun|]. apply Hbit.
  exists ("flags" ++ tab ++ tab ++ ": fpu sse4_2 popcnt avx2"), "fpu sse4_2 popcnt avx2".
  split; [|split; vm_compute; reflexivity].
  do 2 apply list_elem_of_further. apply list_elem_of_here.
Defined.

Lemma Init_unterminated_last_line_twice_witness :
  0 ≤ get_nprocs_conf env_kernel_style ∧
  FLAGS_num_cores env_kernel_style ≤ 0 ∧
  last (lines kernel_style_cpuinfo) = Some ("processor" ++ tab ++ ": 2") ∧
  has_key "processor" ("processor" ++ tab ++ ": 2") = true ∧
  ∃ st, Init env_kernel_style static_init = Ok st ∧ num_cores_ st = 3.
Proof.
  split; [vm_compute; discriminate|]. split; [vm_compute; discriminate|].
  split; [vm_compute; reflexivity|]. split; [vm_compute; reflexivity|].
  destruct (Init_unterminated_last_line_twice env_kernel_style kernel_style_cpuinfo
              ("processor" ++ tab ++ ": 2")
              ltac:(vm_compute; discriminate) ltac:(vm_compute; discriminate)
              eq_refl ltac:(vm_compute; reflexivity) ltac:(vm_compute; discriminate)
              ltac:(vm_compute; reflexivity)) as (st & Hrun & Hnum).
  exists st. split; [exact Hrun|]. vm_compute in Hnum. exact Hnum.
Defined.

Lemma Init_establishes_invariants_witness :
  0 ≤ get_nprocs_conf env_two_nodes ∧
  ∃ st, Init env_two_nodes static_init = Ok st ∧
        enabled_subset st ∧ 1 ≤ num_cores_ st.
Proof.
  split; [vm_compute; discriminate|].
  destruct (Init_establishes_invariants env_two_nodes ltac:(vm_compute; discriminate))
    as (st & Hrun & _ & _ & Hsub & Hnum & _).
  exists st. split; [exact Hrun|]. split; [exact Hsub | exact Hnum].
Defined.

Lemma Init_twice_aborts_witness :
  0 ≤ get_nprocs_conf env_two_nodes ∧
  0 ≤ get_nprocs_conf env_one_node ∧
  ∃ st, Init env_two_nodes static_init = Ok st ∧
        Init env_one_node st = Crash DcheckFailed.
Proof.
  split; [vm_compute; discriminate|]. split; [vm_compute; discriminate|].
  exact (Init_twice_aborts env_two_nodes env_one_node
           ltac:(vm_compute; discriminate) ltac:(vm_compute; discriminate)).
Defined.

Lemma record_of_key_value_witness :
  Str.find ":" "processor" = None ∧
  "009"%char ≠ ":"%char ∧
  record_of ("processor" ++ tab ++ ": 0") = Some ("processor", "0") ∧
  record_of "processor:1" = Some ("processo", "1").
Proof.
  split; [reflexivity|]. split; [discriminate|]. split.
  - exact (record_of_key_value "processor" " 0" "009" eq_refl
             ltac:(discriminate) ltac:(vm_compute; reflexivity)).
  - exact (record_of_key_value "processo" "1" "r" eq_refl
             ltac:(discriminate) ltac:(vm_compute; reflexivity)).
Defined.

Lemma record_of_leading_colon_witness :
  (N.of_nat (String.length " processor") + 1 < 2 ^ 64)%N ∧
  recognized ": processor" = false.
Proof.
  split; [vm_compute; reflexivity|].
  apply (record_of_leading_colon " processor"). vm_compute. reflexivity.
Defined.

Lemma toggle_features_keep_subset_witness :
  let ops := [(AVX2, false); (AVX, true); (AVX2, true)] in
  Forall (fun op => single_bit op.1) ops ∧
  enabled_subset two_node_state ∧
  ∃ st', toggle_features ops two_node_state = Ok st' ∧ enabled_subset st'.
Proof.
  assert (Forall (fun op : Z * bool => single_bit op.1)
            [(AVX2, false); (AVX, true); (AVX2, true)]) as Hops.
  { repeat constructor; simpl.
    - exists 6. split; [lia | reflexivity].
    - exists 5. split; [lia | reflexivity].
    - exists 6. split; [lia | reflexivity]. }
  assert (enabled_subset two_node_state) as Hsub by reflexivity.
  split; [exact Hops|]. split; [exact Hsub|].
  destruct (toggle_features [(AVX2, false); (AVX, true); (AVX2, true)] two_node_state)
    as [st'|] eqn:Hrun; [|vm_compute in Hrun; discriminate].
  exists st'. split; [reflexivity|].
  exact (proj1 (toggle_features_keep_subset _ _ _ Hops Hsub Hrun)).
Defined.

Lemma EnableFeature_other_bits_witness :
  Z.land AVX2 AVX = 0 ∧
  ∃ st', EnableFeature AVX2 false two_node_state = Ok st' ∧
         Z.land (hardware_flags_ st') AVX = Z.land (hardware_flags_ two_node_state) AVX.
Proof.
  split; [reflexivity|].
  destruct (EnableFeature AVX2 false two_node_state) as [st'|] eqn:Hrun;
    [|vm_compute in Hrun; discriminate].
  exists st'. split; [reflexivity|].
  exact (proj1 (EnableFeature_other_bits AVX2 AVX false two_node_state st'
                  eq_refl Hrun)).
Defined.

Lemma InitNuma_first_linked_node_witness :
  let st := with_numa_node_to_cores_ [] two_node_state in
  sys_node_dir env_two_nodes = Some ["has_cpu"; "node0"; "node1"; "online"] ∧
  numa_node_to_cores_ st = [] ∧
  0 ≤ max_num_cores_ st ∧
  ∃ st', InitNuma env_two_nodes st = Ok st' ∧
         max_num_numa_nodes_ st' = 2 ∧
         core_to_numa_node_ st' = [0; 1; 0; 1].
Proof.
  split; [reflexivity|]. split; [reflexivity|]. split; [vm_compute; discriminate|].
  destruct (InitNuma_first_linked_node env_two_nodes
              (with_numa_node_to_cores_ [] two_node_state)
              ["has_cpu"; "node0"; "node1"; "online"] eq_refl eq_refl
              ltac:(vm_compute; discriminate)) as (st' & Hrun & Hnodes & _).
  exists st'. split; [exact Hrun|]. split; [exact Hnodes|].
  vm_compute in Hrun. injection Hrun as <-. reflexivity.
Defined.

Lemma InitNuma_no_node_entries_witness :
  sys_node_dir env_empty_numa_dir = Some ["online"; "possible"] ∧
  List.filter (Str.starts_with "node") ["online"; "possible"] = [] ∧
  sys_node_dir (env_of_table None) = None ∧
  InitNuma env_empty_numa_dir (with_numa_node_to_cores_ [] two_node_state) =
  InitNuma (env_of_table None) (with_numa_node_to_cores_ [] two_node_state).
Proof.
  split; [reflexivity|]. split; [reflexivity|]. split; [reflexivity|].
  exact (InitNuma_no_node_entries env_empty_numa_dir (env_of_table None)
           (with_numa_node_to_cores_ [] two_node_state) ["online"; "possible"]
           eq_refl eq_refl eq_refl).
Defined.

Lemma InitNuma_overwrites_fresh_storage_witness :
  let st := with_numa_node_to_cores_ [] two_node_state in
  sys_node_dir env_two_nodes_stale = sys_node_dir env_two_nodes ∧
  fresh_int env_two_nodes_stale 0 ≠ fresh_int env_two_nodes 0 ∧
  InitNuma env_two_nodes_stale st = InitNuma env_two_nodes st ∧
  is_ok (InitNuma env_two_nodes st) = true.
Proof.
  split; [reflexivity|]. split; [vm_compute; discriminate|].
  split; [|reflexivity].
  exact (InitNuma_overwrites_fresh_storage env_two_nodes env_two_nodes_stale
           (with_numa_node_to_cores_ [] two_node_state) eq_refl
           (fun core node => eq_refl)).
Defined.

Lemma InitFakeNumaForTest_last_wins_witness :
  nodes_in_range 4 [3; 2; 1; 0] ∧
  nodes_in_range 2 [1; 1; 0; 0] ∧
  (st1 ← InitFakeNumaForTest 4 [3; 2; 1; 0] two_node_state;
   InitFakeNumaForTest 2 [1; 1; 0; 0] st1)
  = InitFakeNumaForTest 2 [1; 1; 0; 0] two_node_state.
Proof.
  assert (nodes_in_range 4 [3; 2; 1; 0]) as Hr1 by (repeat constructor; lia).
  assert (nodes_in_range 2 [1; 1; 0; 0]) as Hr2 by (repeat constructor; lia).
  split; [exact Hr1|]. split; [exact Hr2|].
  exact (proj1 (InitFakeNumaForTest_last_wins 4 2 [3; 2; 1; 0] [1; 1; 0; 0]
                  two_node_state eq_refl eq_refl eq_refl
                  ltac:(lia) Hr1 ltac:(lia) Hr2)).
Defined.

Lemma InitFakeNumaForTest_discovered_round_trip_witness :
  0 ≤ get_nprocs_conf env_two_nodes ∧
  ∃ st, Init env_two_nodes static_init = Ok st ∧
        InitFakeNumaForTest (max_num_numa_nodes_ st) (core_to_numa_node_ st) st = Ok st.
Proof.
  split; [vm_compute; discriminate|].
  exact (InitFakeNumaForTest_discovered_round_trip env_two_nodes
           ltac:(vm_compute; discriminate)).
Defined.

Lemma Init_then_GetCurrentCore_has_node_witness :
  1 ≤ get_nprocs_conf env_two_nodes ∧
  ∃ st q node,
    Init env_two_nodes static_init = Ok st ∧
    GetCurrentCore build_x86_64 env_two_nodes st 0 = Ok q ∧
    core_to_numa_node_ st !! Z.to_nat (current_core q) = Some node ∧
    0 ≤ node < max_num_numa_nodes_ st.
Proof.
  split; [vm_compute; discriminate|].
  destruct (Init_then_GetCurrentCore_has_node env_two_nodes env_two_nodes
              build_x86_64 0 ltac:(vm_compute; discriminate))
    as (st & q & node & idx & cores & Hrun & Hq & Hnode & Hin & _).
  exists st, q, node. repeat split; (exact Hrun || exact Hq || exact Hnode || apply Hin).
Defined.

Lemma WarnIfFileNotEqual_accepts_witness :
  Str.find "010" "performance" = None ∧
  governor_files (decimal_substitute governor_format [0])
    = Some ("performance" ++ newline ++ "") ∧
  WarnIfFileNotEqual governor_files (decimal_substitute governor_format [0])
    "performance" "warning" = [].
Proof.
  split; [reflexivity|]. split; [vm_compute; reflexivity|].
  apply (WarnIfFileNotEqual_accepts governor_files _ "performance" "warning" "");
    [reflexivity|]. right. vm_compute. reflexivity.
Defined.

Lemma ParseCPUFlags_sets_named_bits_witness :
  flags_wf ∧
  Z.land (ParseCPUFlags "fpu sse4_2 popcnt") SSE4_2 = SSE4_2 ∧
  Z.land (ParseCPUFlags "fpu sse4_2 popcnt") SSE4_1 = 0.
Proof.
  split; [exact impala_flags_wf|].
  destruct (ParseCPUFlags_sets_named_bits "fpu sse4_2 popcnt" impala_flags_wf)
    as [Hbits _].
  split.
  - apply (Hbits "sse4_2" SSE4_2).
    do 2 apply list_elem_of_further. apply list_elem_of_here.
  - apply (Hbits "sse4_1" SSE4_1).
    apply list_elem_of_further. apply list_elem_of_here.
Defined.

Lemma ParseCPUFlags_avx2_sets_avx_witness :
  Str.contains "fma avx2 bmi2" "avx2" = true ∧
  Z.land (ParseCPUFlags "fma avx2 bmi2") AVX = AVX.
Proof.
  split; [reflexivity|].
  exact (ParseCPUFlags_avx2_sets_avx "fma avx2 bmi2" eq_refl).
Defined.

(** X23.  A negative node count given to [InitFakeNumaForTest] is not
    rejected at the boundary either: the array is copied, and the call
    ends in [vector::resize] throwing on the count converted to
    [size_t]. *)
Theorem InitFakeNumaForTest_negative_nodes (max_nodes : Z) (injected : list Z)
    (st : CpuInfo) :
  max_nodes < 0 →
  Z.of_nat (length injected) = max_num_cores_ st →
  Z.of_nat (length (core_to_numa_node_ st)) = max_num_cores_ st →
  InitFakeNumaForTest max_nodes injected st = Crash LengthError.
Proof.
  intros Hneg Hlen Halloc. unfold InitFakeNumaForTest.
  rewrite bool_decide_true by done. simpl.
  rewrite copy_loop_ok by done. simpl.
  unfold InitNumaNodeToCores, vec_resize. simpl.
  by rewrite (bool_decide_false (0 ≤ max_nodes)) by lia.
Qed.

Lemma InitFakeNumaForTest_negative_nodes_witness :
  -1 < 0 ∧
  InitFakeNumaForTest (-1) [0; 0; 0; 0] two_node_state = Crash LengthError.
Proof.
  split; [reflexivity|].
  exact (InitFakeNumaForTest_negative_nodes (-1) [0; 0; 0; 0] two_node_state
           eq_refl eq_refl eq_refl).
Defined.
